(** * Data-Lake-With-Spark: the ETL job of [etl.py]

    A shallow embedding of [etl.py]: the date-part helper [get_date_part]
    over a model of the calls it makes into Python's [datetime], and the two
    transformers [process_song_data] and [process_log_data] over a model of
    the Spark session (temporary views, registered function) and of the
    object store they write to. *)

From Stdlib Require Import ZArith Lia.
From stdpp Require Import base option strings list gmap pretty.

Local Open Scope Z_scope.

(** ** Outcomes of Python code: a value is returned or an exception raised *)

Inductive exn :=
| ValueError          (* datetime: timestamp out of range *)
| TypeError           (* arithmetic on None *)
| AttributeError
| AnalysisException   (* Spark: a view or function the query text names is unknown *)
| PythonException.    (* Spark: a task failed because the Python function raised *)

Inductive outcome (A : Type) :=
| Returns (a : A)
| Raises (e : exn).
Arguments Returns {A} a.
Arguments Raises {A} e.

#[global] Instance outcome_ret : MRet outcome := fun A a => Returns a.

#[global] Instance outcome_fmap : FMap outcome := fun A B f m =>
  match m with
  | Returns a => Returns (f a)
  | Raises e => Raises e
  end.

#[global] Instance outcome_bind : MBind outcome := fun A B k m =>
  match m with
  | Returns a => k a
  | Raises e => Raises e
  end.

(** What a Python call of [get_date_part] can hand back. *)
Inductive pyvalue :=
| PyNone
| PyInt (n : Z).

(** ** Python's [datetime], the part [get_date_part] calls

    The functions are those of the library's reference implementation
    ([Lib/_pydatetime.py]); [//] and [%] are floor division and its
    remainder, which is what [Z.div] and [Z.modulo] are for a positive
    divisor. *)
Module Datetime.

Definition MINYEAR : Z := 1.
Definition MAXYEAR : Z := 9999.

Definition DAYS_IN_MONTH : list Z :=
  [-1; 31; 28; 31; 30; 31; 30; 31; 31; 30; 31; 30; 31].

Definition DAYS_BEFORE_MONTH : list Z :=
  [-1; 0; 31; 59; 90; 120; 151; 181; 212; 243; 273; 304; 334].

(** [table[i]] for an index the callers keep within the table. *)
Definition index (table : list Z) (i : Z) : Z := nth (Z.to_nat i) table 0.

Definition is_leap (year : Z) : bool :=
  (year mod 4 =? 0) && (negb (year mod 100 =? 0) || (year mod 400 =? 0)).

Definition days_before_year (year : Z) : Z :=
  let y := year - 1 in
  y * 365 + y / 4 - y / 100 + y / 400.

Definition days_in_month (year month : Z) : Z :=
  if (month =? 2) && is_leap year then 29 else index DAYS_IN_MONTH month.

Definition days_before_month (year month : Z) : Z :=
  index DAYS_BEFORE_MONTH month
  + (if (2 <? month) && is_leap year then 1 else 0).

Definition ymd2ord (year month day : Z) : Z :=
  days_before_year year + days_before_month year month + day.

Definition DI400Y : Z := 146097.
Definition DI100Y : Z := 36524.
Definition DI4Y : Z := 1461.

(** Ordinal to (year, month, day), 01-Jan-0001 being day 1. *)
Definition ord2ymd (n : Z) : Z * Z * Z :=
  let n := n - 1 in
  let n400 := n / DI400Y in
  let n := n mod DI400Y in
  let year := n400 * 400 + 1 in
  let n100 := n / DI100Y in
  let n := n mod DI100Y in
  let n4 := n / DI4Y in
  let n := n mod DI4Y in
  let n1 := n / 365 in
  let n := n mod 365 in
  let year := year + n100 * 100 + n4 * 4 + n1 in
  if (n1 =? 4) || (n100 =? 4) then (year - 1, 12, 31)
  else
    let leapyear := (n1 =? 3) && (negb (n4 =? 24) || (n100 =? 3)) in
    let month := Z.shiftr (n + 50) 5 in
    let preceding :=
      index DAYS_BEFORE_MONTH month
      + (if (2 <? month) && leapyear then 1 else 0) in
    if n <? preceding then
      let month := month - 1 in
      let preceding :=
        preceding
        - (index DAYS_IN_MONTH month
           + (if (month =? 2) && leapyear then 1 else 0)) in
      (year, month, n - preceding + 1)
    else (year, month, n - preceding + 1).

(** A naive [datetime]. The microsecond field is left out: none of the
    date parts reads it, and it is the only field that the rounding of
    the binary64 quotient [ts / 1000.0] can move. *)
Record datetime := mk_datetime {
  year : Z;
  month : Z;
  day : Z;
  hour : Z;
  minute : Z;
  second : Z
}.

Definition toordinal (dt : datetime) : Z :=
  ymd2ord (year dt) (month dt) (day dt).

(** [dt.weekday()]: Monday is 0, Sunday is 6. *)
Definition weekday (dt : datetime) : Z := (toordinal dt + 6) mod 7.

Definition THURSDAY : Z := 3.

(** Ordinal of the Monday that starts ISO week 1 of [year]. *)
Definition isoweek1monday (year : Z) : Z :=
  let firstday := ymd2ord year 1 1 in
  let firstweekday := (firstday + 6) mod 7 in
  let week1monday := firstday - firstweekday in
  if THURSDAY <? firstweekday then week1monday + 7 else week1monday.

(** [dt.isocalendar()]: (ISO year, ISO week, ISO weekday). *)
Definition isocalendar (dt : datetime) : Z * Z * Z :=
  let year := year dt in
  let week1monday := isoweek1monday year in
  let today := toordinal dt in
  let week := (today - week1monday) / 7 in
  let day := (today - week1monday) mod 7 in
  if week <? 0 then
    let year := year - 1 in
    let week1monday := isoweek1monday year in
    let week := (today - week1monday) / 7 in
    let day := (today - week1monday) mod 7 in
    (year, week + 1, day + 1)
  else if (52 <=? week) && (isoweek1monday (year + 1) <=? today) then
    (year + 1, 1, day + 1)
  else (year, week + 1, day + 1).

(** [getattr(dt, name)] for the data attributes of a datetime. *)
Definition getattr (dt : datetime) (name : string) : outcome pyvalue :=
  if String.eqb name "year" then Returns (PyInt (year dt))
  else if String.eqb name "month" then Returns (PyInt (month dt))
  else if String.eqb name "day" then Returns (PyInt (day dt))
  else if String.eqb name "hour" then Returns (PyInt (hour dt))
  else if String.eqb name "minute" then Returns (PyInt (minute dt))
  else if String.eqb name "second" then Returns (PyInt (second dt))
  else Raises AttributeError.

(** Ordinal of 1970-01-01 and of 9999-12-31. *)
Definition EPOCH_ORDINAL : Z := 719163.
Definition MAX_ORDINAL : Z := 3652059.

Section LocalTime.
(** The zone rules of the execution environment: the offset from UTC, in
    seconds, in force at an instant given in seconds since the epoch. *)
Variable utcoffset : Z -> Z.

(** The datetime built from [time.localtime(t)]: the wall-clock reading
    at [t], refused when its year is outside [MINYEAR..MAXYEAR] (with
    [ValueError], or [OverflowError] for instants the platform cannot
    convert at all; one constructor stands for both). *)
Definition local (t : Z) : outcome datetime :=
  let u := t + utcoffset t in
  let ordinal := EPOCH_ORDINAL + u / 86400 in
  let s := u mod 86400 in
  if (1 <=? ordinal) && (ordinal <=? MAX_ORDINAL) then
    let '(y, m, d) := ord2ymd ordinal in
    Returns (mk_datetime y m d (s / 3600) (s mod 3600 / 60) (s mod 60))
  else Raises ValueError.

(** Seconds between two wall-clock readings. *)
Definition seconds_between (a b : datetime) : Z :=
  (toordinal a - toordinal b) * 86400
  + (hour a - hour b) * 3600 + (minute a - minute b) * 60
  + (second a - second b).

Definition max_fold_seconds : Z := 24 * 3600.

(** [datetime.fromtimestamp(ms / 1000.0)] for an integer [ms]. The library
    splits the quotient into whole seconds and microseconds; wherever the
    year is in range the binary64 quotient is close enough to the exact one
    for the whole seconds to be [ms // 1000]. After the conversion the
    library probes the clock a day earlier, and at the transition it
    finds, to set the [fold] attribute; the probes can raise as the
    conversion itself can. *)
Definition fromtimestamp_ms (ms : Z) : outcome datetime :=
  let t := ms / 1000 in
  result ← local t;
  probe1 ← local (t - max_fold_seconds);
  let trans := seconds_between result probe1 - max_fold_seconds in
  if trans <? 0 then
    probe2 ← local (t + trans);
    Returns result
  else Returns result.
End LocalTime.

End Datetime.

(** ** Python's membership tests *)

(** [x in (a, b, ...)] on a tuple of strings: some element equals [x]. *)
Definition in_tuple (x : string) (t : list string) : bool :=
  existsb (String.eqb x) t.

(** [x in s] on a string [s]: [x] occurs in [s] as a substring. *)
Fixpoint in_str (x s : string) : bool :=
  String.prefix x s
  || match s with
     | EmptyString => false
     | String _ s' => in_str x s'
     end.

(** ** [get_date_part] *)

Section DatePart.
Variable utcoffset : Z -> Z.

(** [("weekday")] and [("week")] are parenthesised strings, not tuples. *)
Definition get_date_part (ts : Z) (part : string) : outcome pyvalue :=
  dt ← Datetime.fromtimestamp_ms utcoffset ts;
  if in_tuple part ["hour"; "day"; "month"; "year"] then
    Datetime.getattr dt part
  else if in_str part "weekday" then
    Returns (PyInt (Datetime.weekday dt))
  else if in_str part "week" then
    Returns (PyInt (snd (fst (Datetime.isocalendar dt))))
  else Returns PyNone.
End DatePart.

(** The zone of a machine kept on UTC. *)
Definition UTC : Z -> Z := fun _ => 0.

(** ** Spark SQL values

    Every column is nullable: a cell of type [T] is an [option T], [None]
    being SQL's null. Column types are the ones schema inference gives the
    two datasets: strings, 64-bit integers ([long]) and binary64 numbers
    ([double]), the latter kept as their 64-bit patterns. *)

Definition double := Z.

Definition is_nan (d : double) : bool := 2 ^ 63 - 2 ^ 52 <? Z.land d (2 ^ 63 - 1).
Definition is_zero (d : double) : bool := Z.land d (2 ^ 63 - 1) =? 0.

(** Equality of two doubles in Spark SQL: the IEEE comparison, except that
    NaN equals NaN. *)
Definition double_eqb (a b : double) : bool :=
  (is_nan a && is_nan b)
  || (negb (is_nan a) && negb (is_nan b) && ((a =? b) || (is_zero a && is_zero b))).

(** [a = b] in SQL: null when either side is null. *)
Definition sql_eq {T} (eqb : T -> T -> bool) (a b : option T) : option bool :=
  match a, b with
  | Some x, Some y => Some (eqb x y)
  | _, _ => None
  end.

(** [p AND q] in SQL's three-valued logic. *)
Definition sql_and (p q : option bool) : option bool :=
  match p, q with
  | Some false, _ | _, Some false => Some false
  | Some true, Some true => Some true
  | _, _ => None
  end.

Definition is_not_null {T} (a : option T) : option bool := Some (bool_decide (is_Some a)).

(** A WHERE or ON condition accepts a row when it is true, not when it is
    false or null. *)
Definition holds (p : option bool) : bool :=
  match p with
  | Some true => true
  | _ => false
  end.

(** ** The tables: the two inputs and the five outputs *)

Module SongData.
Record t := mk {
  song_id : option string;
  title : option string;
  artist_id : option string;
  year : option Z;
  duration : option double;
  artist_name : option string;
  artist_location : option string;
  artist_latitude : option double;
  artist_longitude : option double
}.
End SongData.

Module Songs.
Record t := mk {
  song_id : option string;
  title : option string;
  artist_id : option string;
  year : option Z;
  duration : option double
}.
End Songs.

Module Artists.
Record t := mk {
  artist_id : option string;
  artist_name : option string;
  artist_location : option string;
  artist_latitude : option double;
  artist_longitude : option double
}.
End Artists.

Module UserLog.
Record t := mk {
  ts : option Z;
  page : option string;
  userId : option string;
  firstName : option string;
  lastName : option string;
  gender : option string;
  level : option string;
  song : option string;
  artist : option string;
  length : option double;
  sessionId : option Z;
  location : option string;
  userAgent : option string
}.
End UserLog.

Module Users.
Record t := mk {
  userId : option string;
  firstName : option string;
  lastName : option string;
  gender : option string;
  level : option string
}.
End Users.

(** The columns computed by the registered function are strings: see
    [call_get_date_part]. *)
Module Times.
Record t := mk {
  ts : option Z;
  hour : option string;
  day : option string;
  month : option string;
  year : option string;
  week : option string;
  weekday : option string
}.
End Times.

Module Songplays.
Record t := mk {
  ts : option Z;
  year : option string;
  month : option string;
  userId : option string;
  level : option string;
  song_id : option string;
  artist_id : option string;
  sessionId : option Z;
  location : option string;
  userAgent : option string
}.
End Songplays.

(** ** Datasets as written to the store *)

Inductive cell :=
| CNull
| CStr (s : string)
| CLong (n : Z)
| CDouble (d : double).

#[global] Instance cell_eq_dec : EqDecision cell.
Proof. solve_decision. Defined.

Definition str (a : option string) : cell := from_option CStr CNull a.
Definition long (a : option Z) : cell := from_option CLong CNull a.
Definition dbl (a : option double) : cell := from_option CDouble CNull a.

(** A row as a file holds it: column names with their cells. *)
Definition row := list (string * cell).

Definition col (c : string) (r : row) : cell :=
  match List.find (fun nc => String.eqb (fst nc) c) r with
  | Some nc => snd nc
  | None => CNull
  end.

(** The rows a DataFrame of each output table is made of. *)
Class Columns (A : Type) := columns : A -> row.

#[global] Instance songs_columns : Columns Songs.t := fun r =>
  [("song_id", str (Songs.song_id r)); ("title", str (Songs.title r));
   ("artist_id", str (Songs.artist_id r)); ("year", long (Songs.year r));
   ("duration", dbl (Songs.duration r))].

#[global] Instance artists_columns : Columns Artists.t := fun r =>
  [("artist_id", str (Artists.artist_id r));
   ("artist_name", str (Artists.artist_name r));
   ("artist_location", str (Artists.artist_location r));
   ("artist_latitude", dbl (Artists.artist_latitude r));
   ("artist_longitude", dbl (Artists.artist_longitude r))].

#[global] Instance users_columns : Columns Users.t := fun r =>
  [("userId", str (Users.userId r)); ("firstName", str (Users.firstName r));
   ("lastName", str (Users.lastName r)); ("gender", str (Users.gender r));
   ("level", str (Users.level r))].

#[global] Instance time_columns : Columns Times.t := fun r =>
  [("ts", long (Times.ts r)); ("hour", str (Times.hour r));
   ("day", str (Times.day r)); ("month", str (Times.month r));
   ("year", str (Times.year r)); ("week", str (Times.week r));
   ("weekday", str (Times.weekday r))].

#[global] Instance songplays_columns : Columns Songplays.t := fun r =>
  [("ts", long (Songplays.ts r)); ("year", str (Songplays.year r));
   ("month", str (Songplays.month r)); ("userId", str (Songplays.userId r));
   ("level", str (Songplays.level r)); ("song_id", str (Songplays.song_id r));
   ("artist_id", str (Songplays.artist_id r));
   ("sessionId", long (Songplays.sessionId r));
   ("location", str (Songplays.location r));
   ("userAgent", str (Songplays.userAgent r))].

(** The values of the partition columns in a row. *)
Definition partition_key (cols : list string) (r : row) : list cell :=
  map (fun c => col c r) cols.

(** A dataset on the store: the columns it is partitioned by and, for every
    value of those columns found in the data, the group of rows that have
    it. Without partition columns all rows have the key [[]]. *)
Record dataset := mk_dataset {
  partition_columns : list string;
  partitions : list (list cell * list row)
}.

Definition partition_rows (cols : list string) (rows : list row)
  : list (list cell * list row) :=
  map (fun k => (k, filter (fun r => partition_key cols r = k) rows))
      (remove_dups (map (partition_key cols) rows)).

(** [df.write.partitionBy(cols).parquet(...)], up to where it is put. *)
Definition parquet `{Columns A} (cols : list string) (df : list A) : dataset :=
  mk_dataset cols (partition_rows cols (map columns df)).

(** All rows of a dataset, as reading it back gives them. *)
Definition dataset_rows (d : dataset) : list row :=
  concat (map snd (partitions d)).

(** ** The Spark session, the object store and the job monad *)

(** The temporary views and the function registered in a session. A view
    holds the rows its query gives; none of the four queries behind the
    views can fail. *)
Record session := mk_session {
  view_song_data : option (list SongData.t);
  view_songs : option (list Songs.t);
  view_user_log_table : option (list UserLog.t);
  view_filtered_user_log : option (list UserLog.t);
  registered_get_date_part : bool
}.

(** [create_spark_session()] in a fresh process. *)
Definition create_spark_session : session :=
  mk_session None None None None false.

(** What the job sees and changes: the JSON records found under each input
    location, typed by the schema inferred for them, the session, and the
    datasets under each output path. Input locations and output paths are
    kept apart: the job is not run with one of its outputs as its input. *)
Record world := mk_world {
  song_files : gmap string (list SongData.t);
  log_files : gmap string (list UserLog.t);
  spark : session;
  store : gmap string dataset
}.

Definition set_spark (f : session -> session) (w : world) : world :=
  mk_world (song_files w) (log_files w) (f (spark w)) (store w).

Definition set_store (f : gmap string dataset -> gmap string dataset) (w : world)
  : world :=
  mk_world (song_files w) (log_files w) (spark w) (f (store w)).

(** A step of the job: it ends normally or raises, and leaves a world. *)
Definition job (A : Type) : Type := world -> outcome A * world.

#[global] Instance job_ret : MRet job := fun A a w => (Returns a, w).

#[global] Instance job_bind : MBind job := fun A B k m w =>
  match m w with
  | (Returns a, w') => k a w'
  | (Raises e, w') => (Raises e, w')
  end.

(** [spark.read.json(input_data)]. *)
Definition read_song_json (input_data : string) : job (list SongData.t) :=
  fun w =>
    match song_files w !! input_data with
    | Some df => (Returns df, w)
    | None => (Raises AnalysisException, w)
    end.

Definition read_log_json (input_data : string) : job (list UserLog.t) :=
  fun w =>
    match log_files w !! input_data with
    | Some df => (Returns df, w)
    | None => (Raises AnalysisException, w)
    end.

(** [df.createOrReplaceTempView(name)], for the four names the job uses. *)
Definition create_view_song_data (df : list SongData.t) : job unit :=
  fun w => (Returns (), set_spark (fun s =>
    mk_session (Some df) (view_songs s) (view_user_log_table s)
      (view_filtered_user_log s) (registered_get_date_part s)) w).

Definition create_view_songs (df : list Songs.t) : job unit :=
  fun w => (Returns (), set_spark (fun s =>
    mk_session (view_song_data s) (Some df) (view_user_log_table s)
      (view_filtered_user_log s) (registered_get_date_part s)) w).

Definition create_view_user_log_table (df : list UserLog.t) : job unit :=
  fun w => (Returns (), set_spark (fun s =>
    mk_session (view_song_data s) (view_songs s) (Some df)
      (view_filtered_user_log s) (registered_get_date_part s)) w).

Definition create_view_filtered_user_log (df : list UserLog.t) : job unit :=
  fun w => (Returns (), set_spark (fun s =>
    mk_session (view_song_data s) (view_songs s) (view_user_log_table s)
      (Some df) (registered_get_date_part s)) w).

(** [spark.udf.register("get_date_part", get_date_part)] *)
Definition register_get_date_part : job unit :=
  fun w => (Returns (), set_spark (fun s =>
    mk_session (view_song_data s) (view_songs s) (view_user_log_table s)
      (view_filtered_user_log s) true) w).

(** [FROM view] in a query: the view has to exist. *)
Definition from {A} (view : session -> option (list A)) : job (list A) :=
  fun w =>
    match view (spark w) with
    | Some df => (Returns df, w)
    | None => (Raises AnalysisException, w)
    end.

(** A query that calls [get_date_part] needs it registered. *)
Definition resolve_get_date_part : job unit :=
  fun w =>
    if registered_get_date_part (spark w) then (Returns (), w)
    else (Raises AnalysisException, w).

(** [df.write.mode('overwrite')...parquet(path)]. A DataFrame is computed
    when it is written, so here is where a failing call of the registered
    function shows. The old content of [path] is removed before the rows
    are computed: a failed write leaves nothing under [path]. *)
Definition write_overwrite (path : string) (d : outcome dataset) : job unit :=
  fun w =>
    match d with
    | Returns d => (Returns (), set_store (insert path d) w)
    | Raises _ => (Raises PythonException, set_store (delete path) w)
    end.

(** ** The queries *)

(** [SELECT song_id, title, artist_id, year, duration FROM song_data] *)
Definition select_songs (song_data : list SongData.t) : list Songs.t :=
  (fun r => Songs.mk (SongData.song_id r) (SongData.title r)
              (SongData.artist_id r) (SongData.year r) (SongData.duration r))
  <$> song_data.

(** [SELECT artist_id, artist_name, artist_location, artist_latitude,
    artist_longitude FROM song_data] *)
Definition select_artists (song_data : list SongData.t) : list Artists.t :=
  (fun r => Artists.mk (SongData.artist_id r) (SongData.artist_name r)
              (SongData.artist_location r) (SongData.artist_latitude r)
              (SongData.artist_longitude r))
  <$> song_data.

(** [page = "NextSong"] *)
Definition is_next_song (r : UserLog.t) : bool :=
  holds (sql_eq String.eqb (UserLog.page r) (Some "NextSong")).

(** [SELECT * FROM user_log_table WHERE page = "NextSong"] *)
Definition select_next_song (user_log : list UserLog.t) : list UserLog.t :=
  filter is_next_song user_log.

(** [SELECT userId, firstName, lastName, gender, level FROM filtered_user_log] *)
Definition select_users (filtered : list UserLog.t) : list Users.t :=
  (fun r => Users.mk (UserLog.userId r) (UserLog.firstName r)
              (UserLog.lastName r) (UserLog.gender r) (UserLog.level r))
  <$> filtered.

Section Job.
(** The zone of the machines the job runs on. *)
Variable utcoffset : Z -> Z.

(** The [S3] section of [dl.cfg]. *)
Variable SONG_DATA LOG_DATA DESTINATION_BUCKET : string.

(** A call of [get_date_part] from a query. The function is registered
    without a return type, which makes it a string function: an integer
    it returns becomes its decimal text and [None] becomes null. A null
    [ts] reaches Python as [None], on which [ts / 1000.0] raises. *)
Definition call_get_date_part (ts : option Z) (part : string)
  : outcome (option string) :=
  match ts with
  | None => Raises TypeError
  | Some ts =>
      v ← get_date_part utcoffset ts part;
      match v with
      | PyNone => Returns None
      | PyInt n => Returns (Some (pretty n))
      end
  end.

Definition time_row (r : UserLog.t) : outcome Times.t :=
  let ts := UserLog.ts r in
  hour ← call_get_date_part ts "hour";
  day ← call_get_date_part ts "day";
  month ← call_get_date_part ts "month";
  year ← call_get_date_part ts "year";
  week ← call_get_date_part ts "week";
  weekday ← call_get_date_part ts "weekday";
  Returns (Times.mk ts hour day month year week weekday).

(** [SELECT ts, get_date_part(ts, "hour") as hour, ... FROM filtered_user_log] *)
Definition select_time (filtered : list UserLog.t) : outcome (list Times.t) :=
  mapM time_row filtered.

(** [filtered_user_log.song = songs.title
     AND filtered_user_log.length = songs.duration] *)
Definition join_on (l : UserLog.t) (s : Songs.t) : option bool :=
  sql_and (sql_eq String.eqb (UserLog.song l) (Songs.title s))
          (sql_eq double_eqb (UserLog.length l) (Songs.duration s)).

(** [filtered_user_log LEFT JOIN songs ON ...]: a row of the log comes
    with every song it matches, and alone when it matches none. *)
Definition left_join (filtered : list UserLog.t) (songs : list Songs.t)
  : list (UserLog.t * option Songs.t) :=
  l ← filtered;
  match filter (fun s => holds (join_on l s)) songs with
  | [] => [(l, None)]
  | matched => (fun s => (l, Some s)) <$> matched
  end.

(** [userId IS NOT NULL AND filtered_user_log.artist IS NOT NULL
     AND filtered_user_log.song IS NOT NULL] *)
Definition songplays_where (j : UserLog.t * option Songs.t) : option bool :=
  sql_and (sql_and (is_not_null (UserLog.userId (fst j)))
                   (is_not_null (UserLog.artist (fst j))))
          (is_not_null (UserLog.song (fst j))).

Definition songplays_row (j : UserLog.t * option Songs.t)
  : outcome Songplays.t :=
  let l := fst j in
  year ← call_get_date_part (UserLog.ts l) "year";
  month ← call_get_date_part (UserLog.ts l) "month";
  Returns (Songplays.mk (UserLog.ts l) year month (UserLog.userId l)
             (UserLog.level l) (snd j ≫= Songs.song_id)
             (snd j ≫= Songs.artist_id) (UserLog.sessionId l)
             (UserLog.location l) (UserLog.userAgent l)).

(** The songplays query: join, then WHERE, then the selected columns. *)
Definition select_songplays (filtered : list UserLog.t) (songs : list Songs.t)
  : outcome (list Songplays.t) :=
  mapM songplays_row
       (filter (fun j => holds (songplays_where j)) (left_join filtered songs)).

(** ** The two transformers and [main] *)

Definition process_song_data (input_data : string) : job unit :=
  song_data ← read_song_json input_data;
  create_view_song_data song_data;;
  song_data ← from view_song_data;
  let songs_table := select_songs song_data in
  create_view_songs songs_table;;
  song_data ← from view_song_data;
  let artists_table := select_artists song_data in
  write_overwrite (DESTINATION_BUCKET +:+ "artists_table.data")
    (Returns (parquet [] artists_table));;
  write_overwrite (DESTINATION_BUCKET +:+ "songs_table.data")
    (Returns (parquet ["year"; "artist_id"] songs_table)).

Definition process_log_data (input_data : string) : job unit :=
  user_log ← read_log_json input_data;
  create_view_user_log_table user_log;;
  user_log_table ← from view_user_log_table;
  create_view_filtered_user_log (select_next_song user_log_table);;
  filtered_user_log ← from view_filtered_user_log;
  let user_table := select_users filtered_user_log in
  register_get_date_part;;
  resolve_get_date_part;;
  filtered_user_log ← from view_filtered_user_log;
  let time_table := select_time filtered_user_log in
  resolve_get_date_part;;
  filtered_user_log ← from view_filtered_user_log;
  songs ← from view_songs;
  let songplays_table := select_songplays filtered_user_log songs in
  write_overwrite (DESTINATION_BUCKET +:+ "user_table.data")
    (Returns (parquet [] user_table));;
  write_overwrite (DESTINATION_BUCKET +:+ "time_table.data")
    (parquet ["year"; "month"] <$> time_table);;
  write_overwrite (DESTINATION_BUCKET +:+ "songplays_table.data")
    (parquet ["year"; "month"] <$> songplays_table).

(** [main()]: a new session, then the two transformers. *)
Definition main : job unit :=
  fun w =>
    (process_song_data SONG_DATA;; process_log_data LOG_DATA)
      (set_spark (fun _ => create_spark_session) w).

End Job.

(** ** Auxiliary definitions for the proofs *)

(** The tail of [ord2ymd]: month and day from the day [n] of the year,
    counted from 0. *)
Definition month_of_day (leapyear : bool) (n : Z) : Z * Z :=
  let month := Z.shiftr (n + 50) 5 in
  let preceding :=
    Datetime.index Datetime.DAYS_BEFORE_MONTH month
    + (if (2 <? month) && leapyear then 1 else 0) in
  if n <? preceding then
    let month := month - 1 in
    let preceding :=
      preceding
      - (Datetime.index Datetime.DAYS_IN_MONTH month
         + (if (month =? 2) && leapyear then 1 else 0)) in
    (month, n - preceding + 1)
  else (month, n - preceding + 1).

(** What [month_of_day] has to give, as a test that can be run on every
    day of a year. *)
Definition month_of_day_ok (leapyear : bool) (n : Z) : bool :=
  let '(m, d) := month_of_day leapyear n in
  (1 <=? m) && (m <=? 12) && (1 <=? d)
  && (d <=? Datetime.index Datetime.DAYS_IN_MONTH m
            + (if (m =? 2) && leapyear then 1 else 0))
  && (Datetime.index Datetime.DAYS_BEFORE_MONTH m
      + (if (2 <? m) && leapyear then 1 else 0) + d =? n + 1).


(** [x] occurs in [s]: what Python's [x in s] decides for strings. *)
Definition substring_of (x s : string) : Prop :=
  exists pre post, s = pre +:+ x +:+ post.

(** Seconds from 1970-01-01 00:00:00 to a wall-clock reading, on the
    reading's own clock. *)
Definition wall_seconds (dt : Datetime.datetime) : Z :=
  (Datetime.toordinal dt - Datetime.EPOCH_ORDINAL) * 86400
  + Datetime.hour dt * 3600 + Datetime.minute dt * 60 + Datetime.second dt.

(** The reading is a date and a time of day of the calendar. *)
Definition valid_datetime (dt : Datetime.datetime) : Prop :=
  Datetime.MINYEAR <= Datetime.year dt <= Datetime.MAXYEAR
  /\ 1 <= Datetime.month dt <= 12
  /\ 1 <= Datetime.day dt
       <= Datetime.days_in_month (Datetime.year dt) (Datetime.month dt)
  /\ 0 <= Datetime.hour dt < 24
  /\ 0 <= Datetime.minute dt < 60
  /\ 0 <= Datetime.second dt < 60.

(** The world [w] with [user_log] as the records under the log location
    [input]. *)
Definition with_log_file (input : string) (user_log : list UserLog.t) (w : world)
  : world :=
  mk_world (song_files w) (<[input := user_log]> (log_files w)) (spark w) (store w).

(** The dataset [d] holds the rows of [df] in one group for each value of
    [key] found in [df]: no two groups have the same key, the keys are the
    values of [key] on [df], and the group of a key is made of the rows of
    [df] that have it. *)
Definition grouped_by `{Columns A} (key : A -> list cell) (df : list A)
    (d : dataset) : Prop :=
  NoDup (fst <$> partitions d)
  /\ (forall k, k ∈ (fst <$> partitions d) <-> exists x, x ∈ df /\ key x = k)
  /\ (forall k g, (k, g) ∈ partitions d ->
        g = columns <$> filter (fun x => key x = k) df).

(** ** A small lake to run the job on *)

Module Sample.

Definition song : SongData.t :=
  SongData.mk (Some "SOZCTXZ12AB0182364") (Some "Setanta matins")
    (Some "AR5KOSW1187FB35FF4") (Some 0) (Some 4643657216434069635)
    (Some "Elena") (Some "Dubai UAE") (Some 4632374429215621120)
    (Some 4633077567622676480).

(** A play of a song that is not in the catalogue. *)
Definition play : UserLog.t :=
  UserLog.mk (Some 1541903636796) (Some "NextSong") (Some "26") (Some "Ryan")
    (Some "Smith") (Some "M") (Some "free") (Some "Sehr kosmisch")
    (Some "Harmonia") (Some 4649054881036097126) (Some 583)
    (Some "San Jose-Sunnyvale-Santa Clara, CA") (Some "Mozilla/5.0").

(** The same user opening the home page. *)
Definition home : UserLog.t :=
  UserLog.mk (Some 1541903770796) (Some "Home") (Some "26") (Some "Ryan")
    (Some "Smith") (Some "M") (Some "free") None None None (Some 583)
    (Some "San Jose-Sunnyvale-Santa Clara, CA") (Some "Mozilla/5.0").

Definition lake : world :=
  mk_world {["song_data" := [song]]} {["log_data" := [play; home]]}
    create_spark_session ∅.

End Sample.

(** More events and lakes, and the rows the queries give for them. *)
Module More.

(** A play of the song of the catalogue: same title, same duration. *)
Definition matched_play : UserLog.t :=
  UserLog.mk (Some 1541990258796) (Some "NextSong") (Some "26") (Some "Ryan")
    (Some "Smith") (Some "M") (Some "free") (Some "Setanta matins")
    (Some "Elena") (Some 4643657216434069635) (Some 583)
    (Some "San Jose-Sunnyvale-Santa Clara, CA") (Some "Mozilla/5.0").

(** A play logged without a user. *)
Definition anonymous_play : UserLog.t :=
  UserLog.mk (Some 1541903636796) (Some "NextSong") None None None None
    (Some "free") (Some "Sehr kosmisch") (Some "Harmonia")
    (Some 4649054881036097126) (Some 583) None (Some "Mozilla/5.0").

(** A play logged without a timestamp. *)
Definition undated_play : UserLog.t :=
  UserLog.mk None (Some "NextSong") (Some "26") (Some "Ryan") (Some "Smith")
    (Some "M") (Some "free") (Some "Sehr kosmisch") (Some "Harmonia")
    (Some 4649054881036097126) (Some 583)
    (Some "San Jose-Sunnyvale-Santa Clara, CA") (Some "Mozilla/5.0").

Definition songs : list Songs.t := select_songs [Sample.song].

Definition play_time : Times.t :=
  Times.mk (Some 1541903636796) (Some "2") (Some "11") (Some "11")
    (Some "2018") (Some "6") (Some "6").

Definition play_row : Songplays.t :=
  Songplays.mk (Some 1541903636796) (Some "2018") (Some "11") (Some "26")
    (Some "free") None None (Some 583)
    (Some "San Jose-Sunnyvale-Santa Clara, CA") (Some "Mozilla/5.0").

Definition matched_row : Songplays.t :=
  Songplays.mk (Some 1541990258796) (Some "2018") (Some "11") (Some "26")
    (Some "free") (Some "SOZCTXZ12AB0182364") (Some "AR5KOSW1187FB35FF4")
    (Some 583) (Some "San Jose-Sunnyvale-Santa Clara, CA")
    (Some "Mozilla/5.0").

Definition empty_lake : world := mk_world ∅ ∅ create_spark_session ∅.

Definition songs_only_lake : world :=
  mk_world {["song_data" := [Sample.song]]} ∅ create_spark_session ∅.

Definition undated_lake : world :=
  mk_world {["song_data" := [Sample.song]]} {["log_data" := [undated_play]]}
    create_spark_session ∅.

End More.

(** * Properties *)

(** ** The calendar arithmetic of [datetime] *)

(** Evaluate table lookups and tests on literals. *)
Ltac eval_bool b :=
  let v := eval vm_compute in b in
  match v with
  | true => change b with true in *
  | false => change b with false in *
  end.

Ltac tables :=
  repeat match goal with
  | |- context [Datetime.index ?t ?k] =>
      let v := eval vm_compute in (Datetime.index t k) in
      progress change (Datetime.index t k) with v in *
  | H : context [Datetime.index ?t ?k] |- _ =>
      let v := eval vm_compute in (Datetime.index t k) in
      progress change (Datetime.index t k) with v in *
  | |- context [?a <? ?b] => eval_bool (a <? b)
  | |- context [?a =? ?b] => eval_bool (a =? b)
  | H : context [?a <? ?b] |- _ => eval_bool (a <? b)
  | H : context [?a =? ?b] |- _ => eval_bool (a =? b)
  end;
  cbn [andb orb negb] in *.

Section DatetimeFacts.
Import Datetime.

Lemma month_of_day_ok_all leap n :
  0 <= n < 365 -> month_of_day_ok leap n = true.
Proof.
  intros Hn.
  assert (H : forallb (month_of_day_ok leap) (seqZ 0 365) = true)
    by (destruct leap; vm_compute; reflexivity).
  rewrite forallb_forall in H. apply H.
  apply list_elem_of_In, elem_of_seqZ. lia.
Qed.

Lemma month_of_day_spec leap n m d :
  0 <= n < 365 -> month_of_day leap n = (m, d) ->
  1 <= m <= 12
  /\ 1 <= d <= index DAYS_IN_MONTH m + (if (m =? 2) && leap then 1 else 0)
  /\ index DAYS_BEFORE_MONTH m + (if (2 <? m) && leap then 1 else 0) + d = n + 1.
Proof.
  intros Hn Hmd. pose proof (month_of_day_ok_all leap n Hn) as H.
  unfold month_of_day_ok in H. rewrite Hmd in H.
  repeat (apply andb_prop in H; destruct H as [H ?]).
  lia.
Qed.

Lemma ord2ymd_eq n :
  ord2ymd n =
    let r400 := (n - 1) mod DI400Y in
    let n100 := r400 / DI100Y in
    let r100 := r400 mod DI100Y in
    let n4 := r100 / DI4Y in
    let r4 := r100 mod DI4Y in
    let n1 := r4 / 365 in
    let year := (n - 1) / DI400Y * 400 + 1 + n100 * 100 + n4 * 4 + n1 in
    if (n1 =? 4) || (n100 =? 4) then (year - 1, 12, 31)
    else
      let '(m, d) :=
        month_of_day ((n1 =? 3) && (negb (n4 =? 24) || (n100 =? 3))) (r4 mod 365) in
      (year, m, d).
Proof.
  unfold ord2ymd, month_of_day. cbv zeta.
  destruct (_ || _); [reflexivity|].
  destruct (_ <? _); reflexivity.
Qed.

Lemma days_before_year_decomp q a b c :
  0 <= a <= 3 -> 0 <= b <= 24 -> 0 <= c <= 3 ->
  days_before_year (q * 400 + 1 + a * 100 + b * 4 + c)
  = DI400Y * q + DI100Y * a + DI4Y * b + 365 * c.
Proof.
  intros. unfold days_before_year, DI400Y, DI100Y, DI4Y. cbv zeta.
  Z.div_mod_to_equations. lia.
Qed.

Lemma is_leap_decomp q a b c :
  0 <= a <= 3 -> 0 <= b <= 24 -> 0 <= c <= 3 ->
  is_leap (q * 400 + 1 + a * 100 + b * 4 + c)
  = (c =? 3) && (negb (b =? 24) || (a =? 3)).
Proof.
  intros. unfold is_leap.
  apply eq_true_iff_eq.
  rewrite !andb_true_iff, !orb_true_iff, !negb_true_iff, !Z.eqb_eq, !Z.eqb_neq.
  Z.div_mod_to_equations. lia.
Qed.

Lemma ord2ymd_spec n y m d :
  ord2ymd n = (y, m, d) ->
  ymd2ord y m d = n /\ 1 <= m <= 12 /\ 1 <= d <= days_in_month y m.
Proof.
  rewrite ord2ymd_eq. cbv zeta.
  set (q := (n - 1) / DI400Y).
  set (r400 := (n - 1) mod DI400Y).
  set (a := r400 / DI100Y). set (r100 := r400 mod DI100Y).
  set (b := r100 / DI4Y). set (r4 := r100 mod DI4Y).
  set (c := r4 / 365). set (r1 := r4 mod 365).
  assert (Hn : n - 1 = DI400Y * q + r400 /\ 0 <= r400 < DI400Y)
    by (subst q r400; unfold DI400Y; Z.div_mod_to_equations; lia).
  assert (Ha : r400 = DI100Y * a + r100 /\ 0 <= r100 < DI100Y /\ 0 <= a <= 4)
    by (subst a r100; unfold DI100Y, DI400Y in *; Z.div_mod_to_equations; lia).
  assert (Hb : r100 = DI4Y * b + r4 /\ 0 <= r4 < DI4Y /\ 0 <= b <= 24)
    by (subst b r4; unfold DI100Y, DI4Y in *; Z.div_mod_to_equations; lia).
  assert (Hc : r4 = 365 * c + r1 /\ 0 <= r1 < 365 /\ 0 <= c <= 4)
    by (subst c r1; unfold DI4Y in *; Z.div_mod_to_equations; lia).
  clearbody q r400 a r100 b r4 c r1.
  destruct ((c =? 4) || (a =? 4)) eqn:Hex.
  - intros [= <- <- <-].
    apply orb_true_iff in Hex. rewrite !Z.eqb_eq in Hex.
    unfold ymd2ord, days_before_month, days_in_month.
    destruct Hex as [-> | ->].
    + assert (a <= 3 /\ b <= 23) as [? ?] by (unfold DI400Y, DI100Y, DI4Y in *; lia).
      replace (q * 400 + 1 + a * 100 + b * 4 + 4 - 1)
        with (q * 400 + 1 + a * 100 + b * 4 + 3) by lia.
      rewrite days_before_year_decomp, is_leap_decomp by lia.
      replace (b =? 24) with false by (symmetry; apply Z.eqb_neq; lia).
      tables. unfold DI400Y, DI100Y, DI4Y in *. lia.
    + assert (b = 0 /\ c = 0) as [-> ->] by (unfold DI400Y, DI100Y, DI4Y in *; lia).
      replace (q * 400 + 1 + 4 * 100 + 0 * 4 + 0 - 1)
        with (q * 400 + 1 + 3 * 100 + 24 * 4 + 3) by lia.
      rewrite days_before_year_decomp, is_leap_decomp by lia.
      tables. unfold DI400Y, DI100Y, DI4Y in *. lia.
  - apply orb_false_iff in Hex. rewrite !Z.eqb_neq in Hex.
    destruct (month_of_day _ r1) as [m' d'] eqn:Hmd.
    intros [= <- <- <-].
    apply month_of_day_spec in Hmd; [|lia].
    unfold ymd2ord, days_before_month, days_in_month.
    rewrite days_before_year_decomp, is_leap_decomp by lia.
    set (leap := (c =? 3) && (negb (b =? 24) || (a =? 3))) in *.
    destruct Hmd as (Hm & Hd & Hsum).
    split; [|split; [lia|]].
    + unfold DI400Y, DI100Y, DI4Y in *. lia.
    + destruct ((m' =? 2) && leap) eqn:E.
      * apply andb_true_iff in E as [E1 E2]. apply Z.eqb_eq in E1. subst m'.
        tables. lia.
      * lia.
Qed.

Lemma day_of_year_range y m d :
  1 <= m <= 12 -> 1 <= d <= days_in_month y m ->
  1 <= days_before_month y m + d <= 366.
Proof.
  intros Hm Hd. unfold days_before_month, days_in_month in *.
  assert (Hc : m = 1 \/ m = 2 \/ m = 3 \/ m = 4 \/ m = 5 \/ m = 6 \/ m = 7
               \/ m = 8 \/ m = 9 \/ m = 10 \/ m = 11 \/ m = 12) by lia.
  destruct (is_leap y);
    repeat (destruct Hc as [-> | Hc]); try subst m; tables; lia.
Qed.

Lemma ord2ymd_year n y m d :
  1 <= n <= MAX_ORDINAL -> ord2ymd n = (y, m, d) -> MINYEAR <= y <= MAXYEAR.
Proof.
  intros Hn H. apply ord2ymd_spec in H as (H & Hm & Hd).
  pose proof (day_of_year_range y m d Hm Hd) as Hdoy.
  unfold ymd2ord in H. rewrite <- Z.add_assoc in H.
  unfold MINYEAR, MAXYEAR, MAX_ORDINAL in *.
  revert H Hdoy. generalize (days_before_month y m + d). intros k H Hk.
  unfold days_before_year in H. cbv zeta in H.
  Z.div_mod_to_equations. lia.
Qed.

Lemma weekday_range dt : 0 <= weekday dt <= 6.
Proof. unfold weekday. Z.div_mod_to_equations. lia. Qed.

Lemma weekday_wall_seconds dt :
  valid_datetime dt -> weekday dt = (wall_seconds dt / 86400 + 3) mod 7.
Proof.
  unfold valid_datetime, weekday, wall_seconds, EPOCH_ORDINAL.
  intros (_ & _ & _ & Hh & Hm & Hs).
  generalize (toordinal dt). intros o.
  Z.div_mod_to_equations. lia.
Qed.

(** Week 1 starts on a Monday at most three days away from 1 January. *)
Lemma isoweek1monday_spec y :
  let w := isoweek1monday y in
  days_before_year y - 2 <= w <= days_before_year y + 4 /\ (w + 6) mod 7 = 0.
Proof.
  unfold isoweek1monday, ymd2ord, days_before_month, THURSDAY. tables.
  cbv zeta. generalize (days_before_year y). intros b.
  destruct (3 <? _) eqn:E; [apply Z.ltb_lt in E | apply Z.ltb_ge in E];
    Z.div_mod_to_equations; lia.
Qed.

Lemma days_before_year_succ y :
  365 <= days_before_year (y + 1) - days_before_year y <= 366.
Proof. unfold days_before_year. cbv zeta. Z.div_mod_to_equations. lia. Qed.

(** The ISO week of a valid date is a number from 1 to 53. *)
Lemma isocalendar_week_range dt :
  valid_datetime dt -> 1 <= snd (fst (isocalendar dt)) <= 53.
Proof.
  intros (_ & Hm & Hd & _).
  pose proof (day_of_year_range _ _ _ Hm Hd) as Hdoy.
  unfold isocalendar, toordinal, ymd2ord. cbv zeta.
  rewrite <- Z.add_assoc. revert Hdoy.
  generalize (days_before_month (year dt) (month dt) + day dt). intros k Hk.
  pose proof (isoweek1monday_spec (year dt)) as H0. cbv zeta in H0.
  pose proof (isoweek1monday_spec (year dt - 1)) as H1. cbv zeta in H1.
  pose proof (days_before_year_succ (year dt - 1)) as Hs.
  replace (year dt - 1 + 1) with (year dt) in Hs by lia.
  revert H0 H1 Hs.
  generalize (isoweek1monday (year dt)) (isoweek1monday (year dt - 1))
    (isoweek1monday (year dt + 1)) (days_before_year (year dt))
    (days_before_year (year dt - 1)).
  intros w0 w1 w2 b0 b1 H0 H1 Hs.
  destruct (_ <? 0) eqn:E1; [apply Z.ltb_lt in E1 | apply Z.ltb_ge in E1].
  - cbn [fst snd]. Z.div_mod_to_equations. lia.
  - destruct (_ && _); cbn [fst snd]; [lia|].
    Z.div_mod_to_equations. lia.
Qed.

Variable utcoffset : Z -> Z.

Lemma local_spec t dt :
  local utcoffset t = Returns dt ->
  wall_seconds dt = t + utcoffset t /\ valid_datetime dt.
Proof.
  unfold local. cbv zeta.
  set (u := t + utcoffset t).
  destruct (_ && _) eqn:Hrange; [|discriminate].
  apply andb_true_iff in Hrange as [H1 H2].
  apply Z.leb_le in H1, H2.
  destruct (ord2ymd _) as [[y m] d] eqn:Hymd.
  intros [= <-].
  pose proof (ord2ymd_year _ _ _ _ (conj H1 H2) Hymd) as Hy.
  apply ord2ymd_spec in Hymd as (Hord & Hm & Hd).
  unfold wall_seconds, valid_datetime, toordinal. cbn.
  rewrite Hord. clearbody u. unfold EPOCH_ORDINAL.
  repeat split; try lia; Z.div_mod_to_equations; lia.
Qed.

Lemma fromtimestamp_ms_local ms dt :
  fromtimestamp_ms utcoffset ms = Returns dt ->
  local utcoffset (ms / 1000) = Returns dt.
Proof.
  unfold fromtimestamp_ms. cbv zeta.
  destruct (local utcoffset (ms / 1000)) as [r|]; [|discriminate]. cbn.
  destruct (local utcoffset (_ - _)) as [p1|]; [|discriminate]. cbn.
  destruct (_ <? 0); [|congruence].
  destruct (local utcoffset _); [cbn; congruence | discriminate].
Qed.

Lemma fromtimestamp_ms_spec ms dt :
  fromtimestamp_ms utcoffset ms = Returns dt ->
  wall_seconds dt = ms / 1000 + utcoffset (ms / 1000) /\ valid_datetime dt.
Proof. intros H. apply local_spec, fromtimestamp_ms_local, H. Qed.

End DatetimeFacts.

(** ** Membership tests *)

Lemma in_tuple_spec x t : in_tuple x t = true <-> x ∈ t.
Proof.
  unfold in_tuple. rewrite existsb_exists. split.
  - intros (y & Hy & Heq). apply String.eqb_eq in Heq. subst y.
    by apply list_elem_of_In.
  - intros Hx. exists x. split; [by apply list_elem_of_In | apply String.eqb_refl].
Qed.

Lemma in_tuple_false x t : in_tuple x t = false <-> x ∉ t.
Proof.
  rewrite <- in_tuple_spec. destruct (in_tuple x t); split; congruence.
Qed.

Lemma append_nil (s : string) : "" +:+ s = s.
Proof. reflexivity. Qed.

Lemma append_cons c (a b : string) : String c a +:+ b = String c (a +:+ b).
Proof. reflexivity. Qed.

Lemma append_assoc (a b c : string) : a +:+ (b +:+ c) = (a +:+ b) +:+ c.
Proof.
  induction a as [|x a IH]; [reflexivity|].
  by rewrite !append_cons, IH.
Qed.

Lemma prefix_spec x s : String.prefix x s = true <-> exists post, s = x +:+ post.
Proof.
  revert x. induction s as [|c' s IH]; intros [|c x]; cbn [String.prefix].
  - split; [by exists "" | done].
  - split; [done | intros [post H]; by rewrite append_cons in H].
  - split; [intros _; by eexists | done].
  - destruct (Ascii.ascii_dec c c') as [<- | Hne].
    + rewrite IH. split; intros [post H]; exists post;
        rewrite append_cons in *; congruence.
    + split; [done | intros [post H]; rewrite append_cons in H; congruence].
Qed.

Lemma in_str_spec x s : in_str x s = true <-> substring_of x s.
Proof.
  unfold substring_of. induction s as [|c s IH]; cbn [in_str].
  - rewrite orb_false_r, prefix_spec. split.
    + intros [post H]. by exists "", post.
    + intros ([|? ?] & post & H); [by exists post | discriminate].
  - rewrite orb_true_iff, prefix_spec, IH. split.
    + intros [[post H] | (pre & post & H)].
      * by exists "", post.
      * exists (String c pre), post. by rewrite append_cons, H.
    + intros ([|c' pre] & post & H).
      * left. by exists post.
      * right. exists pre, post. rewrite append_cons in H. congruence.
Qed.

(** ** [get_date_part] *)

Section DatePartFacts.
Import Datetime.
Variable utcoffset : Z -> Z.

(** Once the timestamp is converted the answer is picked by the three tests
    on [part], in the order they are written. *)
Lemma get_date_part_dispatch ts part dt :
  fromtimestamp_ms utcoffset ts = Returns dt ->
  get_date_part utcoffset ts part =
    if in_tuple part ["hour"; "day"; "month"; "year"] then getattr dt part
    else if in_str part "weekday" then Returns (PyInt (weekday dt))
    else if in_str part "week" then Returns (PyInt (snd (fst (isocalendar dt))))
    else Returns PyNone.
Proof. intros H. unfold get_date_part. rewrite H. reflexivity. Qed.

(** A timestamp that cannot be converted makes every call raise. *)
Lemma get_date_part_raises ts part e :
  fromtimestamp_ms utcoffset ts = Raises e ->
  get_date_part utcoffset ts part = Raises e.
Proof. intros H. unfold get_date_part. rewrite H. reflexivity. Qed.

(** Every substring of ["week"] is one of ["weekday"]: the third test is
    never reached with a part it accepts. *)
Lemma in_str_week_weekday part :
  in_str part "week" = true -> in_str part "weekday" = true.
Proof.
  rewrite !in_str_spec. intros (pre & post & H).
  exists pre, (post +:+ "day").
  rewrite !append_assoc, <- (append_assoc pre), <- H. reflexivity.
Qed.

(** The ISO week of a converted timestamp, which the third test would
    return, is a number from 1 to 53. *)
Lemma iso_week_of_conversion ts dt :
  fromtimestamp_ms utcoffset ts = Returns dt ->
  1 <= snd (fst (isocalendar dt)) <= 53.
Proof.
  intros Hdt. apply isocalendar_week_range.
  by destruct (fromtimestamp_ms_spec utcoffset ts dt Hdt).
Qed.

(** So the parts "week" and "weekday" are answered alike, whatever the
    timestamp and the zone. *)
Lemma get_date_part_week_as_weekday ts :
  get_date_part utcoffset ts "week" = get_date_part utcoffset ts "weekday".
Proof. reflexivity. Qed.

(** A part that is neither one of the four attribute names nor a substring
    of ["weekday"] falls through all three tests. *)
Lemma get_date_part_falls_through ts part dt :
  fromtimestamp_ms utcoffset ts = Returns dt ->
  part ∉ ["hour"; "day"; "month"; "year"] ->
  ~ substring_of part "weekday" ->
  get_date_part utcoffset ts part = Returns PyNone.
Proof.
  intros Hdt Hnot Hsub. rewrite (get_date_part_dispatch _ _ _ Hdt).
  apply in_tuple_false in Hnot. rewrite Hnot.
  destruct (in_str part "weekday") eqn:E1.
  { exfalso. by apply Hsub, in_str_spec. }
  destruct (in_str part "week") eqn:E2; [|done].
  apply in_str_week_weekday in E2. congruence.
Qed.

(** C6: for each of the parts "hour", "day", "month" and "year" the call
    returns that field of the local-time conversion of the timestamp; and
    the conversion is the reading of the local clock at [ts / 1000] seconds
    after the epoch, a valid date and time of day. *)
Theorem get_date_part_calendar_fields ts dt :
  fromtimestamp_ms utcoffset ts = Returns dt ->
  get_date_part utcoffset ts "hour" = Returns (PyInt (hour dt))
  /\ get_date_part utcoffset ts "day" = Returns (PyInt (day dt))
  /\ get_date_part utcoffset ts "month" = Returns (PyInt (month dt))
  /\ get_date_part utcoffset ts "year" = Returns (PyInt (year dt))
  /\ wall_seconds dt = ts / 1000 + utcoffset (ts / 1000)
  /\ valid_datetime dt.
Proof.
  intros Hdt. rewrite !(get_date_part_dispatch _ _ _ Hdt).
  do 4 (split; [reflexivity|]). by apply fromtimestamp_ms_spec.
Qed.

(** C7: for the part "weekday" the call returns the weekday index of the
    local-time conversion, a number from 0 to 6 that counts the days from
    Monday: the local day that holds the epoch, a Thursday, has index 3 and
    each later day has the next index, cyclically. *)
Theorem get_date_part_weekday ts dt :
  fromtimestamp_ms utcoffset ts = Returns dt ->
  get_date_part utcoffset ts "weekday" = Returns (PyInt (weekday dt))
  /\ 0 <= weekday dt <= 6
  /\ weekday dt = ((ts / 1000 + utcoffset (ts / 1000)) / 86400 + 3) mod 7.
Proof.
  intros Hdt. rewrite (get_date_part_dispatch _ _ _ Hdt).
  split; [reflexivity|]. split; [apply weekday_range|].
  destruct (fromtimestamp_ms_spec utcoffset ts dt Hdt) as [Hw Hv].
  rewrite <- Hw. by apply weekday_wall_seconds.
Qed.

(** C2: every part that is a substring of "weekday" and is not one of
    "hour", "day", "month", "year" gets the weekday index of the local-time
    conversion; the parts "week", "weekday", "e" and the empty string are
    among them. *)
Theorem get_date_part_substring_of_weekday ts part dt :
  fromtimestamp_ms utcoffset ts = Returns dt ->
  substring_of part "weekday" ->
  part ∉ ["hour"; "day"; "month"; "year"] ->
  get_date_part utcoffset ts part = Returns (PyInt (weekday dt)).
Proof.
  intros Hdt Hsub Hnot. rewrite (get_date_part_dispatch _ _ _ Hdt).
  apply in_tuple_false in Hnot. apply in_str_spec in Hsub.
  by rewrite Hnot, Hsub.
Qed.

End DatePartFacts.

(** 2018-11-11 02:33:56, a Sunday, read on a UTC clock. *)
Lemma get_date_part_calendar_fields_witness :
  Datetime.fromtimestamp_ms UTC 1541903636796
  = Returns (Datetime.mk_datetime 2018 11 11 2 33 56)
  /\ get_date_part UTC 1541903636796 "hour" = Returns (PyInt 2)
  /\ get_date_part UTC 1541903636796 "year" = Returns (PyInt 2018).
Proof.
  split; [vm_compute; reflexivity|].
  pose proof (get_date_part_calendar_fields UTC 1541903636796
                (Datetime.mk_datetime 2018 11 11 2 33 56)) as H.
  destruct H as (Hh & _ & _ & Hy & _); [vm_compute; reflexivity|].
  split; [exact Hh | exact Hy].
Defined.

Lemma get_date_part_weekday_witness :
  Datetime.fromtimestamp_ms UTC 1541903636796
  = Returns (Datetime.mk_datetime 2018 11 11 2 33 56)
  /\ get_date_part UTC 1541903636796 "weekday" = Returns (PyInt 6).
Proof.
  split; [vm_compute; reflexivity|].
  apply (get_date_part_weekday UTC 1541903636796
           (Datetime.mk_datetime 2018 11 11 2 33 56)).
  vm_compute; reflexivity.
Defined.

Lemma get_date_part_substring_of_weekday_witness :
  get_date_part UTC 1541903636796 "week" = Returns (PyInt 6)
  /\ get_date_part UTC 1541903636796 "weekday" = Returns (PyInt 6)
  /\ get_date_part UTC 1541903636796 "e" = Returns (PyInt 6)
  /\ get_date_part UTC 1541903636796 "" = Returns (PyInt 6).
Proof.
  pose proof (fun part =>
    get_date_part_substring_of_weekday UTC 1541903636796 part
      (Datetime.mk_datetime 2018 11 11 2 33 56) eq_refl) as H.
  split; [|split; [|split]]; apply H;
    solve [ apply in_str_spec; reflexivity | apply in_tuple_false; reflexivity ].
Defined.

(** C1: on Monday 1970-01-05 (UTC) the call with part "week" returns 0, the
    weekday index, where the ISO week number of that day is 2: the test
    [part in ("weekday")] accepts "week" before the "week" test is reached. *)
Theorem get_date_part_week_returns_weekday :
  get_date_part UTC 345600000 "week" = Returns (PyInt 0)
  /\ get_date_part UTC 345600000 "weekday" = Returns (PyInt 0)
  /\ (dt ← Datetime.fromtimestamp_ms UTC 345600000;
      Returns (Datetime.isocalendar dt)) = Returns (1970, 2, 1).
Proof. repeat split; vm_compute; reflexivity. Qed.

(** C3: the part "e" is none of the six recognised names, and the call on
    it does not fall through: at the epoch (a Thursday, UTC) it returns 3. *)
Theorem get_date_part_unrecognised_part_returns_weekday :
  ("e" ∉ ["hour"; "day"; "month"; "year"; "weekday"; "week"])
  /\ get_date_part UTC 0 "e" = Returns (PyInt 3).
Proof. split; [apply in_tuple_false|]; vm_compute; reflexivity. Qed.


(** ** Lists, maps of rows and groups *)

Lemma mapM_Returns {A B} (f : A -> outcome B) l k :
  mapM f l = Returns k -> Forall2 (fun x y => f x = Returns y) l k.
Proof.
  revert k. induction l as [|x l IH]; intros k; cbn.
  - intros [= <-]. constructor.
  - destruct (f x) as [y|] eqn:E; cbn; [|discriminate].
    destruct (mapM f l) as [k'|]; cbn; [|discriminate].
    intros [= <-]. constructor; auto.
Qed.

Lemma mapM_Returns_elem {A B} (f : A -> outcome B) l k x :
  mapM f l = Returns k -> x ∈ l -> exists y, f x = Returns y /\ y ∈ k.
Proof.
  intros H%mapM_Returns Hx. induction H as [|x' y l' k' Hy _ IH].
  - by apply elem_of_nil in Hx.
  - apply elem_of_cons in Hx as [-> | Hx].
    + exists y. split; [done | left].
    + destruct (IH Hx) as (y' & ? & ?). exists y'. split; [done | by right].
Qed.

Lemma groups_perm {A K} `{EqDecision K} (key : A -> K) ks (l : list A) :
  NoDup ks -> (forall x, x ∈ l -> key x ∈ ks) ->
  concat (map (fun k => filter (fun x => key x = k) l) ks) ≡ₚ l.
Proof.
  intros Hnd. revert l. induction Hnd as [|k ks Hk Hnd IH]; intros l Hl.
  - destruct l as [|x l]; [done|].
    exfalso. eapply not_elem_of_nil, (Hl x). left.
  - cbn [map concat].
    etrans; [|apply (filter_app_complement (fun x => key x = k) l)].
    apply Permutation_app_head.
    etrans; [|apply (IH (filter (fun x => key x ≠ k) l))].
    + apply reflexive_eq. f_equal. apply map_ext_in.
      intros k' Hk'%list_elem_of_In. symmetry. apply list_filter_filter_l.
      intros x -> ->. by apply Hk.
    + intros x [Hne Hx]%list_elem_of_filter.
      apply Hl, elem_of_cons in Hx as [? | ?]; done.
Qed.

Lemma dataset_rows_parquet `{Columns A} cols (df : list A) :
  dataset_rows (parquet cols df) ≡ₚ map columns df.
Proof.
  unfold dataset_rows, parquet, partition_rows. cbn [partitions].
  rewrite map_map. cbn [snd].
  apply groups_perm.
  - apply NoDup_remove_dups.
  - intros r Hr. apply elem_of_remove_dups, list_elem_of_In, in_map.
    by apply list_elem_of_In.
Qed.

Lemma filter_none {A} (P : A -> Prop) `{forall x, Decision (P x)} (l : list A) :
  (forall x, x ∈ l -> ~ P x) -> filter P l = [].
Proof.
  induction l as [|x l IH]; intros Hl; [done|].
  rewrite filter_cons_False by (apply Hl; left).
  apply IH. intros y Hy. apply Hl. by right.
Qed.

Lemma append_inj_r (a b c : string) : a +:+ b = a +:+ c -> b = c.
Proof. induction a as [|x a IH]; [done|]. intros [= H]. auto. Qed.

Lemma filter_map_columns `{Columns A} (key : A -> list cell) cols k (df : list A) :
  (forall x, partition_key cols (columns x) = key x) ->
  filter (fun r => partition_key cols r = k) (map columns df)
  = columns <$> filter (fun x => key x = k) df.
Proof.
  intros Hkey. induction df as [|x df IH]; [done|].
  cbn [map]. rewrite !filter_cons, IH, Hkey.
  by destruct (decide (key x = k)).
Qed.

Lemma parquet_grouped_by `{Columns A} (key : A -> list cell) cols (df : list A) :
  (forall x, partition_key cols (columns x) = key x) ->
  grouped_by key df (parquet cols df).
Proof.
  intros Hkey. unfold grouped_by, parquet, partition_rows. cbn [partitions].
  set (ks := remove_dups _).
  assert (Hfst : fst <$> map (fun k => (k, filter (fun r => partition_key cols r = k)
                                              (map columns df))) ks = ks).
  { induction ks as [|k ks' IH]; [done|]. cbn. by rewrite IH. }
  rewrite Hfst. split; [apply NoDup_remove_dups|]. split.
  - intros k. unfold ks. rewrite elem_of_remove_dups.
    rewrite list_elem_of_In, in_map_iff. split.
    + intros (r & <- & (x & <- & Hx)%in_map_iff).
      exists x. by rewrite Hkey, list_elem_of_In.
    + intros (x & Hx & <-). exists (columns x). rewrite Hkey. split; [done|].
      by apply in_map, list_elem_of_In.
  - intros k g (k' & [= <- <-] & _)%list_elem_of_In%in_map_iff.
    by apply filter_map_columns.
Qed.

Lemma parquet_unpartitioned `{Columns A} (df : list A) :
  partition_columns (parquet [] df) = []
  /\ (length (partitions (parquet [] df)) <= 1)%nat.
Proof.
  split; [done|]. unfold parquet, partition_rows. cbn [partitions].
  rewrite length_map.
  assert (Hnd := NoDup_remove_dups (map (partition_key []) (map columns df))).
  assert (Hk : forall k, k ∈ remove_dups (map (partition_key []) (map columns df))
                         -> k = []).
  { intros k (r & <- & _)%elem_of_remove_dups%list_elem_of_In%in_map_iff. done. }
  destruct (remove_dups _) as [|a [|b ks]]; cbn; [lia | lia |].
  exfalso. apply NoDup_cons in Hnd as [Ha _]. apply Ha.
  rewrite (Hk a), (Hk b); [left | right; left | left].
Qed.

(** ** The queries *)

Lemma is_next_song_spec r : is_next_song r = true <-> UserLog.page r = Some "NextSong".
Proof.
  unfold is_next_song. destruct (UserLog.page r) as [p|]; cbn; [|done].
  destruct (String.eqb_spec p "NextSong") as [-> | Hne]; [done|].
  split; [done | congruence].
Qed.

Lemma select_next_song_drop l1 e l2 :
  UserLog.page e ≠ Some "NextSong" ->
  select_next_song (l1 ++ e :: l2) = select_next_song (l1 ++ l2).
Proof.
  intros Hpage. unfold select_next_song.
  rewrite !filter_app, filter_cons_False; [done|].
  intros H%Is_true_eq_true. by apply Hpage, is_next_song_spec.
Qed.

(** ** The job *)

Ltac job_unfold :=
  unfold mbind, job_bind, mret, job_ret, read_song_json, read_log_json, from,
    create_view_song_data, create_view_songs, create_view_user_log_table,
    create_view_filtered_user_log, register_get_date_part,
    resolve_get_date_part, write_overwrite, set_spark, set_store;
  cbn [spark store song_files log_files view_song_data view_songs
       view_user_log_table view_filtered_user_log registered_get_date_part].

Section JobFacts.
Variable utcoffset : Z -> Z.
Variable SONG_DATA LOG_DATA DESTINATION_BUCKET : string.

Lemma process_song_data_run input w :
  process_song_data DESTINATION_BUCKET input w =
    match song_files w !! input with
    | None => (Raises AnalysisException, w)
    | Some song_data =>
        (Returns (),
         mk_world (song_files w) (log_files w)
           (mk_session (Some song_data) (Some (select_songs song_data))
              (view_user_log_table (spark w)) (view_filtered_user_log (spark w))
              (registered_get_date_part (spark w)))
           (<[DESTINATION_BUCKET +:+ "songs_table.data" :=
                parquet ["year"; "artist_id"] (select_songs song_data)]>
              (<[DESTINATION_BUCKET +:+ "artists_table.data" :=
                   parquet [] (select_artists song_data)]> (store w))))
    end.
Proof.
  unfold process_song_data. job_unfold.
  destruct (song_files w !! input); reflexivity.
Qed.

Lemma process_log_data_run input w :
  process_log_data utcoffset DESTINATION_BUCKET input w =
    match log_files w !! input with
    | None => (Raises AnalysisException, w)
    | Some user_log =>
        let filtered := select_next_song user_log in
        let s := mk_session (view_song_data (spark w)) (view_songs (spark w))
                   (Some user_log) (Some filtered) true in
        match view_songs (spark w) with
        | None =>
            (Raises AnalysisException,
             mk_world (song_files w) (log_files w) s (store w))
        | Some songs =>
            let st := <[DESTINATION_BUCKET +:+ "user_table.data" :=
                          parquet [] (select_users filtered)]> (store w) in
            match select_time utcoffset filtered with
            | Raises _ =>
                (Raises PythonException,
                 mk_world (song_files w) (log_files w) s
                   (delete ((DESTINATION_BUCKET +:+ "time_table.data")) st))
            | Returns time_table =>
                let st := <[DESTINATION_BUCKET +:+ "time_table.data" :=
                              parquet ["year"; "month"] time_table]> st in
                match select_songplays utcoffset filtered songs with
                | Raises _ =>
                    (Raises PythonException,
                     mk_world (song_files w) (log_files w) s
                       (delete ((DESTINATION_BUCKET +:+ "songplays_table.data")) st))
                | Returns songplays_table =>
                    (Returns (),
                     mk_world (song_files w) (log_files w) s
                       (<[DESTINATION_BUCKET +:+ "songplays_table.data" :=
                            parquet ["year"; "month"] songplays_table]> st))
                end
            end
        end
    end.
Proof.
  unfold process_log_data. job_unfold.
  destruct (log_files w !! input); [|reflexivity]. cbn zeta.
  destruct (view_songs (spark w)); [|reflexivity].
  destruct (select_time _ _); [|reflexivity]. cbn.
  destruct (select_songplays _ _ _); reflexivity.
Qed.

Lemma output_path_ne (a b : string) :
  a ≠ b -> DESTINATION_BUCKET +:+ a ≠ DESTINATION_BUCKET +:+ b.
Proof. intros Hne Heq. by apply Hne, (append_inj_r DESTINATION_BUCKET). Qed.

Lemma main_eq w :
  main utcoffset SONG_DATA LOG_DATA DESTINATION_BUCKET w =
    match process_song_data DESTINATION_BUCKET SONG_DATA
            (mk_world (song_files w) (log_files w) create_spark_session (store w))
    with
    | (Returns _, w1) => process_log_data utcoffset DESTINATION_BUCKET LOG_DATA w1
    | (Raises e, w1) => (Raises e, w1)
    end.
Proof. reflexivity. Qed.

(** A run of [main] that ends normally: what was read and what is stored. *)
Lemma main_success w :
  (main utcoffset SONG_DATA LOG_DATA DESTINATION_BUCKET w).1 = Returns () ->
  exists song_data user_log time_table songplays_table,
    song_files w !! SONG_DATA = Some song_data
    /\ log_files w !! LOG_DATA = Some user_log
    /\ select_time utcoffset (select_next_song user_log) = Returns time_table
    /\ select_songplays utcoffset (select_next_song user_log)
         (select_songs song_data) = Returns songplays_table
    /\ store (main utcoffset SONG_DATA LOG_DATA DESTINATION_BUCKET w).2
       = <[DESTINATION_BUCKET +:+ "songplays_table.data" :=
             parquet ["year"; "month"] songplays_table]>
         (<[DESTINATION_BUCKET +:+ "time_table.data" :=
              parquet ["year"; "month"] time_table]>
         (<[DESTINATION_BUCKET +:+ "user_table.data" :=
              parquet [] (select_users (select_next_song user_log))]>
         (<[DESTINATION_BUCKET +:+ "songs_table.data" :=
              parquet ["year"; "artist_id"] (select_songs song_data)]>
         (<[DESTINATION_BUCKET +:+ "artists_table.data" :=
              parquet [] (select_artists song_data)]> (store w))))).
Proof.
  rewrite main_eq, process_song_data_run. cbn [song_files].
  destruct (song_files w !! SONG_DATA) as [sd|]; [|discriminate].
  rewrite process_log_data_run. cbn [log_files spark view_songs store].
  destruct (log_files w !! LOG_DATA) as [log|]; [|discriminate]. cbn zeta.
  destruct (select_time _ _) as [tt|] eqn:Ht; [|discriminate].
  destruct (select_songplays _ _ _) as [sp|] eqn:Hs; [|discriminate].
  intros _. by exists sd, log, tt, sp.
Qed.

(** An event that matches no song is joined with nothing. *)
Lemma left_join_unmatched filtered songs e :
  e ∈ filtered ->
  (forall s, s ∈ songs -> join_on e s ≠ Some true) ->
  (e, None) ∈ left_join filtered songs.
Proof.
  intros He Hno. unfold left_join. apply list_elem_of_bind.
  exists e. split; [|done].
  assert (Hf : filter (fun s => holds (join_on e s)) songs = []).
  { apply filter_none. intros s Hs Hh.
    apply (Hno s Hs). by destruct (join_on e s) as [[]|]. }
  rewrite Hf. left.
Qed.

Lemma select_songplays_unmatched filtered songs songplays_table e :
  select_songplays utcoffset filtered songs = Returns songplays_table ->
  e ∈ filtered ->
  is_Some (UserLog.userId e) -> is_Some (UserLog.artist e) ->
  is_Some (UserLog.song e) ->
  (forall s, s ∈ songs -> join_on e s ≠ Some true) ->
  exists year month,
    call_get_date_part utcoffset (UserLog.ts e) "year" = Returns year
    /\ call_get_date_part utcoffset (UserLog.ts e) "month" = Returns month
    /\ Songplays.mk (UserLog.ts e) year month (UserLog.userId e)
         (UserLog.level e) None None (UserLog.sessionId e)
         (UserLog.location e) (UserLog.userAgent e) ∈ songplays_table.
Proof.
  intros Hsel He Hu Ha Hs Hno. unfold select_songplays in Hsel.
  eapply mapM_Returns_elem in Hsel as (r & Hr & Hin).
  2:{ apply list_elem_of_filter. split; [|by apply left_join_unmatched].
      unfold songplays_where, is_not_null. cbn [fst].
      by rewrite !bool_decide_eq_true_2. }
  unfold songplays_row in Hr. cbn [fst snd] in Hr.
  destruct (call_get_date_part _ _ "year") as [y|]; [|discriminate].
  destruct (call_get_date_part _ _ "month") as [m|]; [|discriminate].
  injection Hr as <-. by exists y, m.
Qed.

(** C4: when [main] ends normally, every event of the log with page
    "NextSong" whose userId, artist and song are not null and that the join
    condition (song = title and length = duration) matches with no row of
    the songs table has its row in the songplays dataset that was written:
    the event's own columns, the year and month computed from its [ts], and
    null for song_id and artist_id. *)
Theorem unmatched_event_kept_in_songplays w song_data user_log e :
  (main utcoffset SONG_DATA LOG_DATA DESTINATION_BUCKET w).1 = Returns () ->
  song_files w !! SONG_DATA = Some song_data ->
  log_files w !! LOG_DATA = Some user_log ->
  e ∈ user_log ->
  UserLog.page e = Some "NextSong" ->
  is_Some (UserLog.userId e) -> is_Some (UserLog.artist e) ->
  is_Some (UserLog.song e) ->
  (forall s, s ∈ select_songs song_data -> join_on e s ≠ Some true) ->
  exists songplays year month,
    store (main utcoffset SONG_DATA LOG_DATA DESTINATION_BUCKET w).2
      !! (DESTINATION_BUCKET +:+ "songplays_table.data") = Some songplays
    /\ call_get_date_part utcoffset (UserLog.ts e) "year" = Returns year
    /\ call_get_date_part utcoffset (UserLog.ts e) "month" = Returns month
    /\ columns (Songplays.mk (UserLog.ts e) year month (UserLog.userId e)
                  (UserLog.level e) None None (UserLog.sessionId e)
                  (UserLog.location e) (UserLog.userAgent e))
       ∈ dataset_rows songplays.
Proof.
  intros Hok Hsd Hlog He Hpage Hu Ha Hs Hno.
  apply main_success in Hok as (sd & log & tt & sp & Hsd' & Hlog' & _ & Hsp & ->).
  rewrite Hsd in Hsd'. rewrite Hlog in Hlog'.
  injection Hsd' as <-. injection Hlog' as <-.
  eapply select_songplays_unmatched in Hsp as (y & m & Hy & Hm & Hin); eauto.
  2:{ apply list_elem_of_filter. split; [|done].
      by apply Is_true_eq_left, is_next_song_spec. }
  eexists _, y, m. rewrite lookup_insert_eq.
  repeat (split; [done|]).
  rewrite dataset_rows_parquet. by apply list_elem_of_In, in_map, list_elem_of_In.
Qed.

(** C5: an event whose page is not the string "NextSong" (null included)
    leaves no trace in what [process_log_data] writes: with the event in the
    log or taken out of it, the run ends the same way and leaves the same
    store, so the same users, time and songplays datasets. *)
Theorem non_next_song_event_leaves_no_row w input l1 e l2 :
  UserLog.page e ≠ Some "NextSong" ->
  (process_log_data utcoffset DESTINATION_BUCKET input
     (with_log_file input (l1 ++ e :: l2) w)).1
  = (process_log_data utcoffset DESTINATION_BUCKET input
       (with_log_file input (l1 ++ l2) w)).1
  /\ store (process_log_data utcoffset DESTINATION_BUCKET input
              (with_log_file input (l1 ++ e :: l2) w)).2
     = store (process_log_data utcoffset DESTINATION_BUCKET input
                (with_log_file input (l1 ++ l2) w)).2.
Proof.
  intros Hpage. rewrite !process_log_data_run. unfold with_log_file.
  cbn [log_files spark store song_files]. rewrite !lookup_insert_eq. cbn zeta.
  rewrite (select_next_song_drop _ _ _ Hpage).
  destruct (view_songs (spark w)); [|done].
  destruct (select_time _ _); [|done].
  destruct (select_songplays _ _ _); done.
Qed.

(** C8: [process_song_data] writes a songs dataset and an artists dataset
    whose rows are, up to order, the projection of every input record: both
    have as many rows as the input has records, and when no song_id occurs
    twice in the input that number is the number of distinct song_ids. *)
Theorem song_tables_row_counts w input song_data :
  song_files w !! input = Some song_data ->
  exists songs artists,
    store (process_song_data DESTINATION_BUCKET input w).2
      !! (DESTINATION_BUCKET +:+ "songs_table.data") = Some songs
    /\ store (process_song_data DESTINATION_BUCKET input w).2
         !! (DESTINATION_BUCKET +:+ "artists_table.data") = Some artists
    /\ dataset_rows songs ≡ₚ columns <$> select_songs song_data
    /\ dataset_rows artists ≡ₚ columns <$> select_artists song_data
    /\ length (dataset_rows songs) = length song_data
    /\ length (dataset_rows artists) = length song_data
    /\ (NoDup (SongData.song_id <$> song_data) ->
        length (dataset_rows songs)
        = size (list_to_set (SongData.song_id <$> song_data)
                  : gset (option string))).
Proof.
  intros Hsd. rewrite process_song_data_run, Hsd. cbn [snd store].
  eexists _, _. split; [apply lookup_insert_eq|]. split.
  { rewrite lookup_insert_ne; [apply lookup_insert_eq|].
    by apply output_path_ne. }
  assert (Hs : length (dataset_rows (parquet ["year"; "artist_id"]
                                       (select_songs song_data)))
               = length song_data).
  { rewrite dataset_rows_parquet. unfold select_songs.
    by rewrite length_map, length_fmap. }
  split; [apply dataset_rows_parquet|]. split; [apply dataset_rows_parquet|].
  split; [done|]. split.
  { rewrite dataset_rows_parquet. unfold select_artists.
    by rewrite length_map, length_fmap. }
  intros Hnd. rewrite Hs, size_list_to_set by done. by rewrite length_fmap.
Qed.

(** What [main] writes does not depend on what the store held, nor on the
    session it is started in. *)
Lemma main_overwrites w s' st' :
  let w' := mk_world (song_files w) (log_files w) s' st' in
  (main utcoffset SONG_DATA LOG_DATA DESTINATION_BUCKET w').1
  = (main utcoffset SONG_DATA LOG_DATA DESTINATION_BUCKET w).1
  /\ ((main utcoffset SONG_DATA LOG_DATA DESTINATION_BUCKET w).1 = Returns () ->
      forall table,
        table ∈ ["artists_table.data"; "songs_table.data"; "user_table.data";
                 "time_table.data"; "songplays_table.data"] ->
        store (main utcoffset SONG_DATA LOG_DATA DESTINATION_BUCKET w').2
          !! (DESTINATION_BUCKET +:+ table)
        = store (main utcoffset SONG_DATA LOG_DATA DESTINATION_BUCKET w).2
            !! (DESTINATION_BUCKET +:+ table)).
Proof.
  cbn zeta. split.
  - rewrite !main_eq, !process_song_data_run. cbn [song_files].
    destruct (song_files w !! SONG_DATA) as [sd|]; [|done].
    rewrite !process_log_data_run.
    cbn [log_files spark view_songs store song_files].
    destruct (log_files w !! LOG_DATA) as [log|]; [|done]. cbn zeta.
    destruct (select_time _ _); [|done].
    destruct (select_songplays _ _ _); done.
  - intros Hok table Htable.
    assert (Hok' : (main utcoffset SONG_DATA LOG_DATA DESTINATION_BUCKET
                      (mk_world (song_files w) (log_files w) s' st')).1
                   = Returns ()).
    { revert Hok. rewrite !main_eq, !process_song_data_run. cbn [song_files].
      destruct (song_files w !! SONG_DATA) as [sd|]; [|done].
      rewrite !process_log_data_run.
      cbn [log_files spark view_songs store song_files].
      destruct (log_files w !! LOG_DATA) as [log|]; [|done]. cbn zeta.
      destruct (select_time _ _); [|done].
      destruct (select_songplays _ _ _); done. }
    apply main_success in Hok as (sd & log & tt & sp & Hsd & Hlog & Ht & Hsp & ->).
    apply main_success in Hok'
      as (sd' & log' & tt' & sp' & Hsd' & Hlog' & Ht' & Hsp' & ->).
    cbn [song_files log_files] in Hsd', Hlog'.
    rewrite Hsd in Hsd'. rewrite Hlog in Hlog'.
    injection Hsd' as <-. injection Hlog' as <-.
    rewrite Ht in Ht'. rewrite Hsp in Hsp'.
    injection Ht' as <-. injection Hsp' as <-.
    repeat (apply elem_of_cons in Htable as [-> | Htable];
            [repeat (first [rewrite lookup_insert_eq
                           |rewrite lookup_insert_ne by (by apply output_path_ne)]);
             reflexivity|]).
    by apply elem_of_nil in Htable.
Qed.

(** C9: [main] leaves the input files as they are, and running it again on
    the world it leaves ends the same way and leaves the same world, so
    every dataset is overwritten with what it already holds. Nothing of
    what the store held before is left in the five datasets: started on any
    other store (and session) with the same input files, [main] ends the
    same way and, when it ends normally, leaves the same five datasets. *)
Theorem main_rerun w :
  song_files (main utcoffset SONG_DATA LOG_DATA DESTINATION_BUCKET w).2
  = song_files w
  /\ log_files (main utcoffset SONG_DATA LOG_DATA DESTINATION_BUCKET w).2
     = log_files w
  /\ main utcoffset SONG_DATA LOG_DATA DESTINATION_BUCKET
       (main utcoffset SONG_DATA LOG_DATA DESTINATION_BUCKET w).2
     = main utcoffset SONG_DATA LOG_DATA DESTINATION_BUCKET w
  /\ (forall s' st',
        (main utcoffset SONG_DATA LOG_DATA DESTINATION_BUCKET
           (mk_world (song_files w) (log_files w) s' st')).1
        = (main utcoffset SONG_DATA LOG_DATA DESTINATION_BUCKET w).1
        /\ ((main utcoffset SONG_DATA LOG_DATA DESTINATION_BUCKET w).1
            = Returns () ->
            forall table,
              table ∈ ["artists_table.data"; "songs_table.data";
                       "user_table.data"; "time_table.data";
                       "songplays_table.data"] ->
              store (main utcoffset SONG_DATA LOG_DATA DESTINATION_BUCKET
                       (mk_world (song_files w) (log_files w) s' st')).2
                !! (DESTINATION_BUCKET +:+ table)
              = store (main utcoffset SONG_DATA LOG_DATA DESTINATION_BUCKET w).2
                  !! (DESTINATION_BUCKET +:+ table))).
Proof.
  enough (H : song_files (main utcoffset SONG_DATA LOG_DATA DESTINATION_BUCKET w).2
              = song_files w
              /\ log_files (main utcoffset SONG_DATA LOG_DATA DESTINATION_BUCKET w).2
                 = log_files w
              /\ main utcoffset SONG_DATA LOG_DATA DESTINATION_BUCKET
                   (main utcoffset SONG_DATA LOG_DATA DESTINATION_BUCKET w).2
                 = main utcoffset SONG_DATA LOG_DATA DESTINATION_BUCKET w).
  { destruct H as (H1 & H2 & H3).
    split; [exact H1|]. split; [exact H2|]. split; [exact H3|].
    exact (main_overwrites w). }
  rewrite (main_eq w), process_song_data_run. cbn [song_files].
  destruct (song_files w !! SONG_DATA) as [sd|] eqn:Hsd.
  2:{ cbn [snd song_files log_files]. do 2 (split; [done|]).
      rewrite main_eq, process_song_data_run. cbn [song_files].
      by rewrite Hsd. }
  rewrite process_log_data_run.
  cbn [log_files spark view_songs store song_files view_song_data].
  destruct (log_files w !! LOG_DATA) as [log|] eqn:Hlog; cbn zeta;
    [destruct (select_time _ _) as [tt|] eqn:Ht;
       [destruct (select_songplays _ _ _) as [sp|] eqn:Hsp|]|];
    cbn [snd song_files log_files]; (do 2 (split; [done|]));
    rewrite main_eq, process_song_data_run; cbn [song_files store log_files];
    rewrite Hsd, process_log_data_run;
    cbn [log_files spark view_songs store song_files view_song_data];
    rewrite Hlog; cbn zeta; rewrite ?Ht, ?Hsp;
    do 2 f_equal; apply map_eq; intros k;
    repeat (rewrite ?lookup_insert, ?lookup_delete; case_decide); done.
Qed.

(** C10: when [main] ends normally the songs dataset is written with the
    partition columns (year, artist_id) and holds one group for each
    (year, artist_id) pair found in the songs table; the time and songplays
    datasets are written with the partition columns (year, month), one
    group for each pair found; the artists and users datasets are written
    without partition columns, in a single group. *)
Theorem output_partitioning w :
  (main utcoffset SONG_DATA LOG_DATA DESTINATION_BUCKET w).1 = Returns () ->
  let st := store (main utcoffset SONG_DATA LOG_DATA DESTINATION_BUCKET w).2 in
  exists song_data user_log time_table songplays_table
         songs time songplays artists users,
    song_files w !! SONG_DATA = Some song_data
    /\ log_files w !! LOG_DATA = Some user_log
    /\ select_time utcoffset (select_next_song user_log) = Returns time_table
    /\ select_songplays utcoffset (select_next_song user_log)
         (select_songs song_data) = Returns songplays_table
    /\ (st !! (DESTINATION_BUCKET +:+ "songs_table.data") = Some songs
        /\ partition_columns songs = ["year"; "artist_id"]
        /\ grouped_by (fun s => [long (Songs.year s); str (Songs.artist_id s)])
             (select_songs song_data) songs)
    /\ (st !! (DESTINATION_BUCKET +:+ "time_table.data") = Some time
        /\ partition_columns time = ["year"; "month"]
        /\ grouped_by (fun t => [str (Times.year t); str (Times.month t)])
             time_table time)
    /\ (st !! (DESTINATION_BUCKET +:+ "songplays_table.data") = Some songplays
        /\ partition_columns songplays = ["year"; "month"]
        /\ grouped_by (fun p => [str (Songplays.year p); str (Songplays.month p)])
             songplays_table songplays)
    /\ (st !! (DESTINATION_BUCKET +:+ "artists_table.data") = Some artists
        /\ partition_columns artists = []
        /\ (length (partitions artists) <= 1)%nat)
    /\ (st !! (DESTINATION_BUCKET +:+ "user_table.data") = Some users
        /\ partition_columns users = []
        /\ (length (partitions users) <= 1)%nat).
Proof.
  intros Hok st. subst st.
  apply main_success in Hok as (sd & log & tt & sp & Hsd & Hlog & Ht & Hsp & ->).
  exists sd, log, tt, sp. eexists _, _, _, _, _.
  do 4 (split; [done|]).
  split; [|split; [|split; [|split]]];
    (split; [|split]);
    [ .. ];
    first [ apply parquet_grouped_by; reflexivity
          | apply parquet_unpartitioned
          | reflexivity
          | rewrite ?lookup_insert_eq;
            repeat (rewrite lookup_insert_ne by (by apply output_path_ne);
                    rewrite ?lookup_insert_eq);
            reflexivity ].
Qed.

End JobFacts.

(** ** The job run on the sample lake *)

Lemma unmatched_event_kept_in_songplays_witness :
  exists songplays year month,
    store (main UTC "song_data" "log_data" "lake/" Sample.lake).2
      !! ("lake/" +:+ "songplays_table.data") = Some songplays
    /\ call_get_date_part UTC (UserLog.ts Sample.play) "year" = Returns year
    /\ call_get_date_part UTC (UserLog.ts Sample.play) "month" = Returns month
    /\ columns (Songplays.mk (UserLog.ts Sample.play) year month
                  (UserLog.userId Sample.play) (UserLog.level Sample.play)
                  None None (UserLog.sessionId Sample.play)
                  (UserLog.location Sample.play) (UserLog.userAgent Sample.play))
       ∈ dataset_rows songplays.
Proof.
  apply (unmatched_event_kept_in_songplays UTC "song_data" "log_data" "lake/"
           Sample.lake [Sample.song] [Sample.play; Sample.home] Sample.play).
  - vm_compute; reflexivity.
  - vm_compute; reflexivity.
  - vm_compute; reflexivity.
  - left.
  - reflexivity.
  - eexists; reflexivity.
  - eexists; reflexivity.
  - eexists; reflexivity.
  - intros s Hs. apply list_elem_of_singleton in Hs. subst s.
    vm_compute. discriminate.
Defined.

Lemma non_next_song_event_leaves_no_row_witness :
  UserLog.page Sample.home ≠ Some "NextSong"
  /\ store (process_log_data UTC "lake/" "log_data"
              (with_log_file "log_data" ([Sample.play] ++ Sample.home :: [])
                 Sample.lake)).2
     = store (process_log_data UTC "lake/" "log_data"
                (with_log_file "log_data" ([Sample.play] ++ []) Sample.lake)).2.
Proof.
  split; [discriminate|].
  apply (non_next_song_event_leaves_no_row UTC "lake/" Sample.lake "log_data"
           [Sample.play] Sample.home []).
  discriminate.
Defined.

Lemma song_tables_row_counts_witness :
  exists songs artists,
    store (process_song_data "lake/" "song_data" Sample.lake).2
      !! ("lake/" +:+ "songs_table.data") = Some songs
    /\ store (process_song_data "lake/" "song_data" Sample.lake).2
         !! ("lake/" +:+ "artists_table.data") = Some artists
    /\ dataset_rows songs ≡ₚ columns <$> select_songs [Sample.song]
    /\ dataset_rows artists ≡ₚ columns <$> select_artists [Sample.song]
    /\ length (dataset_rows songs) = length [Sample.song]
    /\ length (dataset_rows artists) = length [Sample.song]
    /\ (NoDup (SongData.song_id <$> [Sample.song]) ->
        length (dataset_rows songs)
        = size (list_to_set (SongData.song_id <$> [Sample.song])
                  : gset (option string))).
Proof.
  apply (song_tables_row_counts "lake/" Sample.lake "song_data" [Sample.song]).
  vm_compute; reflexivity.
Defined.

Lemma output_partitioning_witness :
  (main UTC "song_data" "log_data" "lake/" Sample.lake).1 = Returns ()
  /\ exists songs,
       store (main UTC "song_data" "log_data" "lake/" Sample.lake).2
         !! ("lake/" +:+ "songs_table.data") = Some songs
       /\ partition_columns songs = ["year"; "artist_id"].
Proof.
  split; [vm_compute; reflexivity|].
  destruct (output_partitioning UTC "song_data" "log_data" "lake/" Sample.lake)
    as (sd & log & tt & sp & songs & time & songplays & artists & users
        & _ & _ & _ & _ & (Hsongs & Hcols & _) & _);
    [vm_compute; reflexivity|].
  exists songs. split; [exact Hsongs | exact Hcols].
Defined.

(** * Further properties *)

(** ** Results of [mapM] and filters *)

Lemma mapM_Returns_elem_inv {A B} (f : A -> outcome B) l k y :
  mapM f l = Returns k -> y ∈ k -> exists x, x ∈ l /\ f x = Returns y.
Proof.
  intros H%mapM_Returns Hy. induction H as [|x y' l' k' Hy' _ IH].
  - by apply elem_of_nil in Hy.
  - apply elem_of_cons in Hy as [-> | Hy].
    + exists x. split; [left | done].
    + destruct (IH Hy) as (x' & ? & ?). exists x'. split; [by right | done].
Qed.

Lemma mapM_Raises {A B} (f : A -> outcome B) l x e :
  x ∈ l -> f x = Raises e -> exists e', mapM f l = Raises e'.
Proof.
  intros Hx Hf. induction l as [|a l IH]; [by apply elem_of_nil in Hx|].
  cbn. apply elem_of_cons in Hx as [<- | Hx].
  - rewrite Hf. by eexists.
  - destruct (f a); cbn; [|by eexists].
    destruct (IH Hx) as [e' ->]. by eexists.
Qed.

Lemma mapM_Returns_length {A B} (f : A -> outcome B) l k :
  mapM f l = Returns k -> length l = length k.
Proof. intros H%mapM_Returns. by eapply Forall2_length. Qed.

Lemma filter_all {A} (P : A -> Prop) `{forall x, Decision (P x)} (l : list A) :
  (forall x, x ∈ l -> P x) -> filter P l = l.
Proof.
  induction l as [|x l IH]; intros Hl; [done|].
  rewrite filter_cons_True by (apply Hl; left).
  f_equal. apply IH. intros y Hy. apply Hl. by right.
Qed.

(** ** More on [get_date_part] *)

Section DatePartMore.
Import Datetime.
Variable utcoffset : Z -> Z.

Lemma get_date_part_parts ts dt :
  fromtimestamp_ms utcoffset ts = Returns dt ->
  get_date_part utcoffset ts "hour" = Returns (PyInt (hour dt))
  /\ get_date_part utcoffset ts "day" = Returns (PyInt (day dt))
  /\ get_date_part utcoffset ts "month" = Returns (PyInt (month dt))
  /\ get_date_part utcoffset ts "year" = Returns (PyInt (year dt))
  /\ get_date_part utcoffset ts "week" = Returns (PyInt (weekday dt))
  /\ get_date_part utcoffset ts "weekday" = Returns (PyInt (weekday dt)).
Proof.
  intros Hdt. rewrite !(get_date_part_dispatch _ _ _ _ Hdt).
  by repeat split.
Qed.

(** X2: the third test of [get_date_part] is never reached with a part it
    accepts: for every timestamp and every part the function is the one
    written without the ["week"] branch, so no call returns through
    [isocalendar]. *)
Theorem get_date_part_week_branch_unreachable ts part :
  get_date_part utcoffset ts part =
    dt ← fromtimestamp_ms utcoffset ts;
    if in_tuple part ["hour"; "day"; "month"; "year"] then getattr dt part
    else if in_str part "weekday" then Returns (PyInt (weekday dt))
    else Returns PyNone.
Proof.
  unfold get_date_part.
  destruct (fromtimestamp_ms utcoffset ts) as [dt|]; [|reflexivity].
  unfold mbind, outcome_bind.
  destruct (in_tuple part _); [reflexivity|].
  destruct (in_str part "weekday") eqn:E1; [reflexivity|].
  destruct (in_str part "week") eqn:E2; [|reflexivity].
  apply in_str_week_weekday in E2. congruence.
Qed.

Lemma local_out_of_range t :
  253402300800 <= t + utcoffset t \/ t + utcoffset t < -62135596800 ->
  local utcoffset t = Raises ValueError.
Proof.
  intros H. unfold local. cbv zeta.
  destruct (_ && _) eqn:E; [|reflexivity]. exfalso.
  apply andb_true_iff in E as [E1 E2]. apply Z.leb_le in E1, E2.
  unfold EPOCH_ORDINAL, MAX_ORDINAL in *.
  revert E1 E2 H. generalize (t + utcoffset t). intros u E1 E2 H.
  Z.div_mod_to_equations. lia.
Qed.

(** X3: a timestamp whose local reading falls after the year 9999 or
    before the year 1 makes the call raise, whatever the part, recognised
    or not. *)
Theorem get_date_part_out_of_range ts part :
  253402300800 <= ts / 1000 + utcoffset (ts / 1000)
  \/ ts / 1000 + utcoffset (ts / 1000) < -62135596800 ->
  get_date_part utcoffset ts part = Raises ValueError.
Proof.
  intros H. unfold get_date_part, fromtimestamp_ms. cbv zeta.
  by rewrite (local_out_of_range _ H).
Qed.

(** X4: 24 hours later, with the same offset from UTC in force, the
    weekday returned is the next one, Sunday being followed by Monday. *)
Theorem get_date_part_weekday_next_day ts dt dt' :
  fromtimestamp_ms utcoffset ts = Returns dt ->
  fromtimestamp_ms utcoffset (ts + 86400000) = Returns dt' ->
  utcoffset ((ts + 86400000) / 1000) = utcoffset (ts / 1000) ->
  get_date_part utcoffset ts "weekday" = Returns (PyInt (weekday dt))
  /\ get_date_part utcoffset (ts + 86400000) "weekday"
     = Returns (PyInt ((weekday dt + 1) mod 7)).
Proof.
  intros Hdt Hdt' Hoff.
  rewrite (get_date_part_dispatch _ _ _ _ Hdt), (get_date_part_dispatch _ _ _ _ Hdt').
  split; [reflexivity|].
  change (Returns (PyInt (weekday dt')) = Returns (PyInt ((weekday dt + 1) mod 7))).
  do 2 f_equal.
  destruct (fromtimestamp_ms_spec _ _ _ Hdt) as [Hw Hv].
  destruct (fromtimestamp_ms_spec _ _ _ Hdt') as [Hw' Hv'].
  rewrite (weekday_wall_seconds _ Hv), (weekday_wall_seconds _ Hv'), Hw, Hw', Hoff.
  replace ((ts + 86400000) / 1000) with (ts / 1000 + 86400)
    by (Z.div_mod_to_equations; lia).
  generalize (ts / 1000) (utcoffset (ts / 1000)). intros a b.
  Z.div_mod_to_equations. lia.
Qed.

End DatePartMore.

(** X1: for a timestamp that has a local-time conversion, [get_date_part]
    returns [None] exactly for the parts that are none of "hour", "day",
    "month", "year" and do not occur in "weekday" as a substring. *)
Theorem get_date_part_none_iff utcoffset ts part dt :
  Datetime.fromtimestamp_ms utcoffset ts = Returns dt ->
  get_date_part utcoffset ts part = Returns PyNone
  <-> (part ∉ ["hour"; "day"; "month"; "year"])
      /\ ~ substring_of part "weekday".
Proof.
  intros Hdt. rewrite (get_date_part_dispatch _ _ _ _ Hdt). split.
  - destruct (in_tuple part _) eqn:E.
    { apply in_tuple_spec in E.
      repeat (apply elem_of_cons in E as [-> | E]); try discriminate.
      by apply elem_of_nil in E. }
    destruct (in_str part "weekday") eqn:E1; [discriminate|].
    intros _. split; [by apply in_tuple_false|].
    intros H%in_str_spec. congruence.
  - intros [Hnot Hsub]. apply in_tuple_false in Hnot. rewrite Hnot.
    destruct (in_str part "weekday") eqn:E1.
    { exfalso. by apply Hsub, in_str_spec. }
    destruct (in_str part "week") eqn:E2; [|done].
    apply in_str_week_weekday in E2. congruence.
Qed.


(** ** More on the queries *)

Section QueryFacts.
Import Datetime.
Variable utcoffset : Z -> Z.

Lemma call_get_date_part_parts t dt :
  fromtimestamp_ms utcoffset t = Returns dt ->
  call_get_date_part utcoffset (Some t) "hour" = Returns (Some (pretty (hour dt)))
  /\ call_get_date_part utcoffset (Some t) "day" = Returns (Some (pretty (day dt)))
  /\ call_get_date_part utcoffset (Some t) "month" = Returns (Some (pretty (month dt)))
  /\ call_get_date_part utcoffset (Some t) "year" = Returns (Some (pretty (year dt)))
  /\ call_get_date_part utcoffset (Some t) "week" = Returns (Some (pretty (weekday dt)))
  /\ call_get_date_part utcoffset (Some t) "weekday"
     = Returns (Some (pretty (weekday dt))).
Proof.
  intros Hdt. unfold call_get_date_part.
  destruct (get_date_part_parts utcoffset t dt Hdt) as (-> & -> & -> & -> & -> & ->).
  by repeat split.
Qed.

Lemma call_get_date_part_raises ts part :
  ts = None \/ (exists t e, ts = Some t /\ fromtimestamp_ms utcoffset t = Raises e) ->
  exists e, call_get_date_part utcoffset ts part = Raises e.
Proof.
  intros [-> | (t & e & -> & H)]; [by eexists|].
  unfold call_get_date_part, get_date_part. rewrite H. by eexists.
Qed.

Lemma time_row_Returns e r :
  time_row utcoffset e = Returns r ->
  exists t dt,
    UserLog.ts e = Some t /\ fromtimestamp_ms utcoffset t = Returns dt
    /\ r = Times.mk (Some t) (Some (pretty (hour dt))) (Some (pretty (day dt)))
             (Some (pretty (month dt))) (Some (pretty (year dt)))
             (Some (pretty (weekday dt))) (Some (pretty (weekday dt))).
Proof.
  unfold time_row. cbv zeta. destruct (UserLog.ts e) as [t|]; [|discriminate].
  destruct (fromtimestamp_ms utcoffset t) as [dt|err] eqn:Hdt.
  - destruct (call_get_date_part_parts t dt Hdt) as (-> & -> & -> & -> & -> & ->).
    intros [= <-]. by exists t, dt.
  - destruct (call_get_date_part_raises (Some t) "hour") as [e' ->]; [|discriminate].
    right. by exists t, err.
Qed.

(** X5: when the time query succeeds it gives one row for each filtered
    event, in order: the event's [ts], then the hour, day, month and year of
    its local-time conversion as decimal strings, and the weekday index in
    both the week and the weekday column. *)
Theorem time_table_rows filtered time_table :
  select_time utcoffset filtered = Returns time_table ->
  Forall2 (fun e r =>
    exists t dt,
      UserLog.ts e = Some t /\ fromtimestamp_ms utcoffset t = Returns dt
      /\ r = Times.mk (Some t) (Some (pretty (hour dt))) (Some (pretty (day dt)))
               (Some (pretty (month dt))) (Some (pretty (year dt)))
               (Some (pretty (weekday dt))) (Some (pretty (weekday dt))))
    filtered time_table.
Proof.
  intros H%mapM_Returns. eapply Forall2_impl; [exact H|].
  intros e r Hr. by apply time_row_Returns.
Qed.

Lemma left_join_cons e l songs :
  left_join (e :: l) songs = left_join [e] songs ++ left_join l songs.
Proof. unfold left_join. cbn. by rewrite app_nil_r. Qed.

Lemma left_join_app l1 l2 songs :
  left_join (l1 ++ l2) songs = left_join l1 songs ++ left_join l2 songs.
Proof. unfold left_join. apply bind_app. Qed.

Lemma left_join_fst filtered songs j :
  j ∈ left_join filtered songs -> j.1 ∈ filtered.
Proof.
  unfold left_join. intros (e & Hj & He)%list_elem_of_bind.
  destruct (filter _ songs) as [|s m].
  - apply list_elem_of_singleton in Hj. by subst j.
  - apply list_elem_of_fmap in Hj as (s' & -> & _). done.
Qed.

Lemma left_join_one_length e songs :
  length (left_join [e] songs)
  = Nat.max 1 (length (filter (fun s => holds (join_on e s)) songs)).
Proof.
  unfold left_join. cbn. rewrite app_nil_r.
  destruct (filter _ songs) as [|s m]; [done|].
  cbn. rewrite length_fmap. lia.
Qed.

Lemma left_join_one_fst e songs j :
  j ∈ left_join [e] songs -> j.1 = e.
Proof.
  intros H%left_join_fst. by apply list_elem_of_singleton in H.
Qed.

Lemma left_join_matched filtered songs e s :
  e ∈ filtered -> s ∈ songs -> join_on e s = Some true ->
  (e, Some s) ∈ left_join filtered songs.
Proof.
  intros He Hs Hon. unfold left_join. apply list_elem_of_bind.
  exists e. split; [|done].
  assert (Hin : s ∈ filter (fun s => holds (join_on e s)) songs).
  { apply list_elem_of_filter. split; [by rewrite Hon | done]. }
  destruct (filter _ songs) as [|s0 m]; [by apply elem_of_nil in Hin|].
  apply list_elem_of_fmap. by exists s.
Qed.

(** The WHERE condition looks at the event only. *)
Lemma songplays_where_event j :
  holds (songplays_where j) = true
  <-> is_Some (UserLog.userId j.1) /\ is_Some (UserLog.artist j.1)
      /\ is_Some (UserLog.song j.1).
Proof.
  unfold songplays_where, is_not_null.
  destruct (UserLog.userId j.1), (UserLog.artist j.1), (UserLog.song j.1); cbn;
    split; try done; intros (H1 & H2 & H3);
    try (by destruct H1); try (by destruct H2); by destruct H3.
Qed.

Lemma filter_where_one e songs :
  filter (fun j => holds (songplays_where j)) (left_join [e] songs)
  = if decide (is_Some (UserLog.userId e) /\ is_Some (UserLog.artist e)
               /\ is_Some (UserLog.song e))
    then left_join [e] songs else [].
Proof.
  case_decide as Hq.
  - apply filter_all. intros j Hj. apply Is_true_eq_left, songplays_where_event.
    by rewrite (left_join_one_fst _ _ _ Hj).
  - apply filter_none. intros j Hj Hh. apply Hq.
    rewrite <- (left_join_one_fst _ _ _ Hj).
    by apply songplays_where_event, Is_true_eq_true.
Qed.

(** X8: an event whose userId, artist or song is null gives no songplays
    row and is not even handed to the registered function: the songplays
    query gives the same, rows or failure, with the event taken out. *)
Theorem songplays_skips_events_with_null_fields l1 e l2 songs :
  UserLog.userId e = None \/ UserLog.artist e = None \/ UserLog.song e = None ->
  select_songplays utcoffset (l1 ++ e :: l2) songs
  = select_songplays utcoffset (l1 ++ l2) songs.
Proof.
  intros Hnull. unfold select_songplays.
  rewrite !left_join_app, left_join_cons, !filter_app, filter_where_one.
  rewrite decide_False; [done|].
  intros ([? Hu] & [? Ha] & [? Hs]). destruct Hnull as [H | [H | H]]; congruence.
Qed.

(** X7: an event with userId, artist and song that the join condition
    matches with a song has a songplays row with that song's song_id and
    artist_id; an event matching several songs has a row for each. *)
Theorem matched_event_in_songplays filtered songs songplays_table e s :
  select_songplays utcoffset filtered songs = Returns songplays_table ->
  e ∈ filtered -> s ∈ songs ->
  is_Some (UserLog.userId e) -> is_Some (UserLog.artist e) ->
  is_Some (UserLog.song e) ->
  join_on e s = Some true ->
  exists year month,
    call_get_date_part utcoffset (UserLog.ts e) "year" = Returns year
    /\ call_get_date_part utcoffset (UserLog.ts e) "month" = Returns month
    /\ Songplays.mk (UserLog.ts e) year month (UserLog.userId e)
         (UserLog.level e) (Songs.song_id s) (Songs.artist_id s)
         (UserLog.sessionId e) (UserLog.location e) (UserLog.userAgent e)
       ∈ songplays_table.
Proof.
  intros Hsel He Hs Hu Ha Hso Hon. unfold select_songplays in Hsel.
  eapply mapM_Returns_elem in Hsel as (r & Hr & Hin).
  2:{ apply list_elem_of_filter. split; [|by apply left_join_matched].
      by apply Is_true_eq_left, songplays_where_event. }
  unfold songplays_row in Hr. cbn [fst snd] in Hr.
  destruct (call_get_date_part _ _ "year") as [y|]; [|discriminate].
  destruct (call_get_date_part _ _ "month") as [m|]; [|discriminate].
  injection Hr as <-. by exists y, m.
Qed.

(** X6: every songplays row has a time row with the same ts, year and
    month, so the two tables can be joined on them. *)
Theorem songplays_rows_in_time_table filtered songs songplays_table time_table p :
  select_songplays utcoffset filtered songs = Returns songplays_table ->
  select_time utcoffset filtered = Returns time_table ->
  p ∈ songplays_table ->
  exists r, r ∈ time_table /\ Times.ts r = Songplays.ts p
            /\ Times.year r = Songplays.year p
            /\ Times.month r = Songplays.month p.
Proof.
  intros Hsp Ht Hp. unfold select_songplays in Hsp.
  destruct (mapM_Returns_elem_inv _ _ _ _ Hsp Hp) as (j & Hj & Hrow).
  apply list_elem_of_filter in Hj as [_ Hj]. apply left_join_fst in Hj.
  destruct (mapM_Returns_elem _ _ _ _ Ht Hj) as (r & Hr & Hin).
  exists r. split; [done|].
  apply time_row_Returns in Hr as (t & dt & Hts & Hdt & ->).
  unfold songplays_row in Hrow. cbv zeta in Hrow. rewrite Hts in Hrow.
  destruct (call_get_date_part_parts t dt Hdt) as (_ & _ & Hm & Hy & _).
  rewrite Hy, Hm in Hrow. injection Hrow as <-. done.
Qed.

(** X9: the songplays query gives, for each filtered event with userId,
    artist and song, as many rows as songs match it, and one row when none
    does; the other events give none. *)
Theorem songplays_row_count filtered songs songplays_table :
  select_songplays utcoffset filtered songs = Returns songplays_table ->
  length songplays_table
  = sum_list_with
      (fun e => Nat.max 1 (length (filter (fun s => holds (join_on e s)) songs)))
      (filter (fun e => is_Some (UserLog.userId e) /\ is_Some (UserLog.artist e)
                        /\ is_Some (UserLog.song e)) filtered).
Proof.
  intros H%mapM_Returns_length. rewrite <- H. clear H.
  induction filtered as [|e l IH]; [done|].
  rewrite left_join_cons, filter_app, length_app, IH, filter_where_one, filter_cons.
  case_decide; [|done]. cbn [sum_list_with]. by rewrite left_join_one_length.
Qed.

End QueryFacts.

Lemma holds_true p : holds p = true <-> p = Some true.
Proof. destruct p as [[]|]; cbn; split; congruence. Qed.

(** X17: the join condition holds exactly when the event's song and the
    song's title are the same non-null string and the event's length and
    the song's duration are non-null and equal as doubles: a null on either
    side never matches. *)
Theorem join_on_true e s :
  join_on e s = Some true
  <-> exists title length duration,
        UserLog.song e = Some title /\ Songs.title s = Some title
        /\ UserLog.length e = Some length /\ Songs.duration s = Some duration
        /\ double_eqb length duration = true.
Proof.
  unfold join_on, sql_eq. split.
  - destruct (UserLog.song e) as [t|], (Songs.title s) as [t'|],
      (UserLog.length e) as [d|], (Songs.duration s) as [d'|]; cbn;
      try discriminate; try (by destruct (String.eqb _ _));
      try (by destruct (double_eqb _ _)).
    destruct (String.eqb_spec t t') as [<- | Hne]; [|by destruct (double_eqb d d')].
    destruct (double_eqb d d') eqn:Hd; [|discriminate].
    intros _. by exists t, d, d'.
  - intros (t & d & d' & -> & -> & -> & -> & Hd). cbn.
    by rewrite String.eqb_refl, Hd.
Qed.

Lemma left_join_inv filtered songs j :
  j ∈ left_join filtered songs ->
  j.1 ∈ filtered
  /\ ((exists s, j.2 = Some s /\ s ∈ songs /\ join_on j.1 s = Some true)
      \/ (j.2 = None /\ forall s, s ∈ songs -> join_on j.1 s ≠ Some true)).
Proof.
  intros Hj. split; [by eapply left_join_fst|].
  unfold left_join in Hj. apply list_elem_of_bind in Hj as (e & Hj & _).
  destruct (filter _ songs) as [|s0 m] eqn:Hf.
  - apply list_elem_of_singleton in Hj. subst j. right. split; [done|].
    intros s Hs Hon. cbn [fst] in Hon.
    apply (filter_nil_not_elem_of _ _ s Hf); [|done]. by rewrite Hon.
  - apply list_elem_of_fmap in Hj as (s & -> & Hs). left. exists s.
    rewrite <- Hf in Hs. apply list_elem_of_filter in Hs as [Hh Hs].
    split; [done|]. split; [done|]. by apply holds_true, Is_true_eq_true.
Qed.


Section QueryMore.
Variable utcoffset : Z -> Z.

(** X16: every songplays row comes from a filtered event with userId,
    artist and song: it has the event's columns and the year and month of
    its [ts], and either the ids of a song the join condition matches with
    the event, or null ids when no song matches. *)
Theorem songplays_rows_come_from_events filtered songs songplays_table p :
  select_songplays utcoffset filtered songs = Returns songplays_table ->
  p ∈ songplays_table ->
  exists e year month song_id artist_id,
    e ∈ filtered
    /\ is_Some (UserLog.userId e) /\ is_Some (UserLog.artist e)
    /\ is_Some (UserLog.song e)
    /\ call_get_date_part utcoffset (UserLog.ts e) "year" = Returns year
    /\ call_get_date_part utcoffset (UserLog.ts e) "month" = Returns month
    /\ p = Songplays.mk (UserLog.ts e) year month (UserLog.userId e)
             (UserLog.level e) song_id artist_id (UserLog.sessionId e)
             (UserLog.location e) (UserLog.userAgent e)
    /\ ((exists s, s ∈ songs /\ join_on e s = Some true
                   /\ song_id = Songs.song_id s /\ artist_id = Songs.artist_id s)
        \/ ((forall s, s ∈ songs -> join_on e s ≠ Some true)
            /\ song_id = None /\ artist_id = None)).
Proof.
  intros Hsp Hp. unfold select_songplays in Hsp.
  destruct (mapM_Returns_elem_inv _ _ _ _ Hsp Hp) as ([e o] & Hj & Hrow).
  apply list_elem_of_filter in Hj as [Hw Hj].
  apply Is_true_eq_true, songplays_where_event in Hw as (Hu & Ha & Hs).
  apply left_join_inv in Hj as [He Hcase]. cbn [fst snd] in *.
  unfold songplays_row in Hrow. cbn [fst snd] in Hrow.
  destruct (call_get_date_part _ _ "year") as [y|] eqn:Hy; [|discriminate].
  destruct (call_get_date_part _ _ "month") as [m|] eqn:Hm; [|discriminate].
  injection Hrow as <-.
  exists e, y, m, (o ≫= Songs.song_id), (o ≫= Songs.artist_id).
  do 7 (split; [done|]).
  destruct Hcase as [(s & -> & Hs' & Hon) | [-> Hno]].
  - left. by exists s.
  - by right.
Qed.

End QueryMore.

(** ** More on the job *)

Section JobMore.
Variable utcoffset : Z -> Z.
Variable SONG_DATA LOG_DATA DESTINATION_BUCKET : string.

Ltac other_path Hp :=
  repeat first
    [ rewrite lookup_insert_ne by (intros <-; apply Hp; set_solver)
    | rewrite lookup_delete_ne by (intros <-; apply Hp; set_solver) ].

(** X10: [main] reads and writes the five output paths only: whatever
    else the store holds is left as it was, also when the run fails. *)
Theorem main_leaves_other_paths w p :
  p ∉ [DESTINATION_BUCKET +:+ "artists_table.data";
       DESTINATION_BUCKET +:+ "songs_table.data";
       DESTINATION_BUCKET +:+ "user_table.data";
       DESTINATION_BUCKET +:+ "time_table.data";
       DESTINATION_BUCKET +:+ "songplays_table.data"] ->
  store (main utcoffset SONG_DATA LOG_DATA DESTINATION_BUCKET w).2 !! p
  = store w !! p.
Proof.
  intros Hp. rewrite main_eq, process_song_data_run. cbn [song_files].
  destruct (song_files w !! SONG_DATA) as [sd|]; [|done].
  rewrite process_log_data_run. cbn [log_files spark view_songs store song_files].
  destruct (log_files w !! LOG_DATA) as [log|]; cbn zeta;
    [destruct (select_time _ _); [destruct (select_songplays _ _ _)|]|];
    cbn [snd store]; by other_path Hp.
Qed.

(** X11: when nothing is found under the song location, [main] raises
    before it writes anything: the store is left as it was, and the log is
    not processed. *)
Theorem main_without_song_data w :
  song_files w !! SONG_DATA = None ->
  (main utcoffset SONG_DATA LOG_DATA DESTINATION_BUCKET w).1
  = Raises AnalysisException
  /\ store (main utcoffset SONG_DATA LOG_DATA DESTINATION_BUCKET w).2 = store w.
Proof.
  intros H. rewrite main_eq, process_song_data_run. cbn [song_files].
  by rewrite H.
Qed.

(** X12: when the songs are read and nothing is found under the log
    location, [main] raises after the artists and songs datasets are
    written and leaves the rest of the store, older log outputs included,
    as it was. *)
Theorem main_without_log_data w song_data :
  song_files w !! SONG_DATA = Some song_data ->
  log_files w !! LOG_DATA = None ->
  (main utcoffset SONG_DATA LOG_DATA DESTINATION_BUCKET w).1
  = Raises AnalysisException
  /\ store (main utcoffset SONG_DATA LOG_DATA DESTINATION_BUCKET w).2
     = <[DESTINATION_BUCKET +:+ "songs_table.data" :=
           parquet ["year"; "artist_id"] (select_songs song_data)]>
       (<[DESTINATION_BUCKET +:+ "artists_table.data" :=
            parquet [] (select_artists song_data)]> (store w)).
Proof.
  intros Hs Hl. rewrite main_eq, process_song_data_run. cbn [song_files].
  rewrite Hs, process_log_data_run. cbn [log_files]. by rewrite Hl.
Qed.

(** X13: [process_log_data] in a session without the songs view (one in
    which [process_song_data] has not run) raises when it builds the join
    query, before it writes: the store is left as it was. *)
Theorem process_log_data_needs_songs_view input w :
  view_songs (spark w) = None ->
  (process_log_data utcoffset DESTINATION_BUCKET input w).1
  = Raises AnalysisException
  /\ store (process_log_data utcoffset DESTINATION_BUCKET input w).2 = store w.
Proof.
  intros H. rewrite process_log_data_run.
  destruct (log_files w !! input); [|done]. cbn zeta. by rewrite H.
Qed.

(** X14: one "NextSong" event without a timestamp, or with one that
    cannot be converted, makes the whole run fail when the time table is
    written: the users dataset is written, the songplays dataset is not. *)
Theorem main_fails_on_unconvertible_ts w song_data user_log e :
  song_files w !! SONG_DATA = Some song_data ->
  log_files w !! LOG_DATA = Some user_log ->
  e ∈ user_log ->
  UserLog.page e = Some "NextSong" ->
  UserLog.ts e = None
  \/ (exists t err, UserLog.ts e = Some t
                    /\ Datetime.fromtimestamp_ms utcoffset t = Raises err) ->
  (main utcoffset SONG_DATA LOG_DATA DESTINATION_BUCKET w).1
  = Raises PythonException
  /\ store (main utcoffset SONG_DATA LOG_DATA DESTINATION_BUCKET w).2
       !! (DESTINATION_BUCKET +:+ "user_table.data")
     = Some (parquet [] (select_users (select_next_song user_log)))
  /\ store (main utcoffset SONG_DATA LOG_DATA DESTINATION_BUCKET w).2
       !! (DESTINATION_BUCKET +:+ "songplays_table.data")
     = store w !! (DESTINATION_BUCKET +:+ "songplays_table.data").
Proof.
  intros Hs Hl He Hpage Hts.
  assert (Ht : exists err, select_time utcoffset (select_next_song user_log)
                           = Raises err).
  { destruct (call_get_date_part_raises utcoffset _ "hour" Hts) as [err Hc].
    eapply (mapM_Raises _ _ e).
    - apply list_elem_of_filter. split; [|done].
      by apply Is_true_eq_left, is_next_song_spec.
    - unfold time_row. cbv zeta. by rewrite Hc. }
  destruct Ht as [err Ht].
  rewrite main_eq, process_song_data_run. cbn [song_files].
  rewrite Hs, process_log_data_run. cbn [log_files spark view_songs store].
  rewrite Hl. cbn zeta. rewrite Ht. cbn [fst snd store].
  split; [done|]. split.
  - rewrite lookup_delete_ne by (by apply output_path_ne).
    apply lookup_insert_eq.
  - rewrite lookup_delete_ne by (by apply output_path_ne).
    by rewrite !lookup_insert_ne by (by apply output_path_ne).
Qed.

(** X15: [process_log_data], once it has its log and the songs view,
    writes a users dataset with one row for every "NextSong" event, users
    not being deduplicated, whether or not the later writes succeed. *)
Theorem users_table_rows input w user_log songs :
  log_files w !! input = Some user_log ->
  view_songs (spark w) = Some songs ->
  exists users,
    store (process_log_data utcoffset DESTINATION_BUCKET input w).2
      !! (DESTINATION_BUCKET +:+ "user_table.data") = Some users
    /\ dataset_rows users ≡ₚ columns <$> select_users (select_next_song user_log)
    /\ length (dataset_rows users)
       = length (filter (fun e => UserLog.page e = Some "NextSong") user_log).
Proof.
  intros Hl Hv. rewrite process_log_data_run, Hl. cbn zeta. rewrite Hv.
  exists (parquet [] (select_users (select_next_song user_log))).
  split.
  { destruct (select_time _ _); [destruct (select_songplays _ _ _)|];
      cbn [snd store];
      repeat first [ rewrite lookup_insert_ne by (by apply output_path_ne)
                   | rewrite lookup_delete_ne by (by apply output_path_ne) ];
      apply lookup_insert_eq. }
  split; [apply dataset_rows_parquet|].
  rewrite dataset_rows_parquet. unfold select_users, select_next_song.
  rewrite length_map, length_fmap. f_equal. apply list_filter_iff.
  intros e. rewrite <- is_next_song_spec. apply Is_true_true.
Qed.

End JobMore.

(** ** The further properties on the sample data *)

Lemma get_date_part_none_iff_witness :
  get_date_part UTC 1541903636796 "foo" = Returns PyNone
  <-> ("foo" ∉ ["hour"; "day"; "month"; "year"]) /\ ~ substring_of "foo" "weekday".
Proof.
  apply (get_date_part_none_iff UTC 1541903636796 "foo"
           (Datetime.mk_datetime 2018 11 11 2 33 56)).
  vm_compute; reflexivity.
Defined.

Lemma get_date_part_out_of_range_witness :
  get_date_part UTC 1000000000000000000 "hour" = Raises ValueError.
Proof.
  apply (get_date_part_out_of_range UTC 1000000000000000000 "hour").
  left. vm_compute. discriminate.
Defined.

Lemma get_date_part_weekday_next_day_witness :
  get_date_part UTC 1541903636796 "weekday" = Returns (PyInt 6)
  /\ get_date_part UTC (1541903636796 + 86400000) "weekday" = Returns (PyInt 0).
Proof.
  apply (get_date_part_weekday_next_day UTC 1541903636796
           (Datetime.mk_datetime 2018 11 11 2 33 56)
           (Datetime.mk_datetime 2018 11 12 2 33 56));
    vm_compute; reflexivity.
Defined.

Lemma time_table_rows_witness :
  Forall2 (fun e r =>
    exists t dt,
      UserLog.ts e = Some t /\ Datetime.fromtimestamp_ms UTC t = Returns dt
      /\ r = Times.mk (Some t) (Some (pretty (Datetime.hour dt)))
               (Some (pretty (Datetime.day dt)))
               (Some (pretty (Datetime.month dt)))
               (Some (pretty (Datetime.year dt)))
               (Some (pretty (Datetime.weekday dt)))
               (Some (pretty (Datetime.weekday dt))))
    [Sample.play] [More.play_time].
Proof.
  apply (time_table_rows UTC [Sample.play] [More.play_time]).
  vm_compute; reflexivity.
Defined.

Lemma songplays_rows_in_time_table_witness :
  exists r, r ∈ [More.play_time] /\ Times.ts r = Songplays.ts More.play_row
            /\ Times.year r = Songplays.year More.play_row
            /\ Times.month r = Songplays.month More.play_row.
Proof.
  apply (songplays_rows_in_time_table UTC [Sample.play] More.songs
           [More.play_row] [More.play_time] More.play_row).
  - vm_compute; reflexivity.
  - vm_compute; reflexivity.
  - left.
Defined.

Lemma matched_event_in_songplays_witness :
  exists year month,
    call_get_date_part UTC (UserLog.ts More.matched_play) "year" = Returns year
    /\ call_get_date_part UTC (UserLog.ts More.matched_play) "month" = Returns month
    /\ Songplays.mk (UserLog.ts More.matched_play) year month
         (UserLog.userId More.matched_play) (UserLog.level More.matched_play)
         (Some "SOZCTXZ12AB0182364") (Some "AR5KOSW1187FB35FF4")
         (UserLog.sessionId More.matched_play)
         (UserLog.location More.matched_play)
         (UserLog.userAgent More.matched_play)
       ∈ [More.play_row; More.matched_row].
Proof.
  apply (matched_event_in_songplays UTC [Sample.play; More.matched_play]
           More.songs [More.play_row; More.matched_row] More.matched_play
           (Songs.mk (Some "SOZCTXZ12AB0182364") (Some "Setanta matins")
              (Some "AR5KOSW1187FB35FF4") (Some 0) (Some 4643657216434069635))).
  - vm_compute; reflexivity.
  - right; left.
  - left.
  - eexists; reflexivity.
  - eexists; reflexivity.
  - eexists; reflexivity.
  - vm_compute; reflexivity.
Defined.

Lemma songplays_skips_events_with_null_fields_witness :
  select_songplays UTC ([Sample.play] ++ More.anonymous_play :: [More.matched_play])
    More.songs
  = select_songplays UTC ([Sample.play] ++ [More.matched_play]) More.songs.
Proof.
  apply (songplays_skips_events_with_null_fields UTC [Sample.play]
           More.anonymous_play [More.matched_play] More.songs).
  left. reflexivity.
Defined.

Lemma songplays_row_count_witness :
  length [More.play_row; More.matched_row]
  = sum_list_with
      (fun e => Nat.max 1 (length (filter (fun s => holds (join_on e s)) More.songs)))
      (filter (fun e => is_Some (UserLog.userId e) /\ is_Some (UserLog.artist e)
                        /\ is_Some (UserLog.song e))
         [Sample.play; More.anonymous_play; More.matched_play]).
Proof.
  apply (songplays_row_count UTC
           [Sample.play; More.anonymous_play; More.matched_play] More.songs
           [More.play_row; More.matched_row]).
  vm_compute; reflexivity.
Defined.

Lemma songplays_rows_come_from_events_witness :
  exists e year month song_id artist_id,
    e ∈ [Sample.play; More.matched_play]
    /\ is_Some (UserLog.userId e) /\ is_Some (UserLog.artist e)
    /\ is_Some (UserLog.song e)
    /\ call_get_date_part UTC (UserLog.ts e) "year" = Returns year
    /\ call_get_date_part UTC (UserLog.ts e) "month" = Returns month
    /\ More.matched_row
       = Songplays.mk (UserLog.ts e) year month (UserLog.userId e)
           (UserLog.level e) song_id artist_id (UserLog.sessionId e)
           (UserLog.location e) (UserLog.userAgent e)
    /\ ((exists s, s ∈ More.songs /\ join_on e s = Some true
                   /\ song_id = Songs.song_id s /\ artist_id = Songs.artist_id s)
        \/ ((forall s, s ∈ More.songs -> join_on e s ≠ Some true)
            /\ song_id = None /\ artist_id = None)).
Proof.
  apply (songplays_rows_come_from_events UTC [Sample.play; More.matched_play]
           More.songs [More.play_row; More.matched_row] More.matched_row).
  - vm_compute; reflexivity.
  - right; left.
Defined.

Lemma main_leaves_other_paths_witness :
  store (main UTC "song_data" "log_data" "lake/" Sample.lake).2 !! "elsewhere"
  = store Sample.lake !! "elsewhere".
Proof.
  apply (main_leaves_other_paths UTC "song_data" "log_data" "lake/" Sample.lake
           "elsewhere").
  apply in_tuple_false. reflexivity.
Defined.

Lemma main_without_song_data_witness :
  (main UTC "song_data" "log_data" "lake/" More.empty_lake).1
  = Raises AnalysisException
  /\ store (main UTC "song_data" "log_data" "lake/" More.empty_lake).2
     = store More.empty_lake.
Proof.
  apply (main_without_song_data UTC "song_data" "log_data" "lake/" More.empty_lake).
  reflexivity.
Defined.

Lemma main_without_log_data_witness :
  (main UTC "song_data" "log_data" "lake/" More.songs_only_lake).1
  = Raises AnalysisException
  /\ store (main UTC "song_data" "log_data" "lake/" More.songs_only_lake).2
     = <["lake/" +:+ "songs_table.data" :=
           parquet ["year"; "artist_id"] (select_songs [Sample.song])]>
       (<["lake/" +:+ "artists_table.data" :=
            parquet [] (select_artists [Sample.song])]>
          (store More.songs_only_lake)).
Proof.
  apply (main_without_log_data UTC "song_data" "log_data" "lake/"
           More.songs_only_lake [Sample.song]).
  - vm_compute; reflexivity.
  - reflexivity.
Defined.

Lemma process_log_data_needs_songs_view_witness :
  (process_log_data UTC "lake/" "log_data" Sample.lake).1
  = Raises AnalysisException
  /\ store (process_log_data UTC "lake/" "log_data" Sample.lake).2
     = store Sample.lake.
Proof.
  apply (process_log_data_needs_songs_view UTC "lake/" "log_data" Sample.lake).
  reflexivity.
Defined.

Lemma main_fails_on_unconvertible_ts_witness :
  (main UTC "song_data" "log_data" "lake/" More.undated_lake).1
  = Raises PythonException
  /\ store (main UTC "song_data" "log_data" "lake/" More.undated_lake).2
       !! ("lake/" +:+ "user_table.data")
     = Some (parquet [] (select_users (select_next_song [More.undated_play])))
  /\ store (main UTC "song_data" "log_data" "lake/" More.undated_lake).2
       !! ("lake/" +:+ "songplays_table.data")
     = store More.undated_lake !! ("lake/" +:+ "songplays_table.data").
Proof.
  apply (main_fails_on_unconvertible_ts UTC "song_data" "log_data" "lake/"
           More.undated_lake [Sample.song] [More.undated_play] More.undated_play).
  - vm_compute; reflexivity.
  - vm_compute; reflexivity.
  - left.
  - reflexivity.
  - left. reflexivity.
Defined.

Lemma users_table_rows_witness :
  exists users,
    store (process_log_data UTC "lake/" "log_data"
             (process_song_data "lake/" "song_data" Sample.lake).2).2
      !! ("lake/" +:+ "user_table.data") = Some users
    /\ dataset_rows users
       ≡ₚ columns <$> select_users (select_next_song [Sample.play; Sample.home])
    /\ length (dataset_rows users)
       = length (filter (fun e => UserLog.page e = Some "NextSong")
                   [Sample.play; Sample.home]).
Proof.
  apply (users_table_rows UTC "lake/" "log_data"
           (process_song_data "lake/" "song_data" Sample.lake).2
           [Sample.play; Sample.home] More.songs).
  - vm_compute; reflexivity.
  - vm_compute; reflexivity.
Defined.
